(** * llama-mesh-blender: a shallow embedding of the add-on and its llama.cpp wrapper

    The development follows the two Python modules of the repository:

    - [src/__init__.py]: the OBJ line converters [_obj_vertex_to_bpy] and
      [_obj_face_to_bpy] and the operator body [GenerateMesh.execute];
    - [src/llama_cpp_wrapper/_wrapper.py]: [_progressive_download],
      [_ensure_binary], [_ensure_gguf] and [LlamaCppWrapper.generate_oneshot].

    Python values are modelled as follows.  A [str] is a [string] whose
    characters are read as code points below 256; [bytes] are a [string] of
    octets.  An [int] is a [Z], a [float] is a binary64 [PrimFloat.float].
    A call that may raise returns a [result].  The file system, the network
    and the subprocess are explicit state.

    Host calls are taken to return normally: [print], [process.wait], and
    the Blender API apart from [Mesh.from_pydata], whose failure is left
    open.  Paths are split at slashes, as [pathlib] does on POSIX. *)

From Stdlib Require Import ZArith Lia Bool Ascii.
From Stdlib Require Import Floats.PrimFloat Floats.SpecFloat Floats.FloatOps.
From stdpp Require Import gmap strings list.

Local Open Scope Z_scope.

(** ** Exceptions and results *)

Inductive exn : Type :=
  | ValueError
  | TypeError
  | IndexError
  | KeyError
  | StopIteration
  | GeneratorExit
  | UnicodeDecodeError
  | URLError
  | HTTPError
  | OSError
  | BadZipFile
  | IsADirectoryError.

Inductive result (A : Type) : Type :=
  | Ok (a : A)
  | Raise (e : exn).
Arguments Ok {A} a.
Arguments Raise {A} e.

Definition bind {A B} (r : result A) (k : A -> result B) : result B :=
  match r with
  | Ok a => k a
  | Raise e => Raise e
  end.

Notation "x <- r ;; k" := (bind r (fun x => k))
  (at level 100, r at next level, right associativity).

(** [tuple(f(x) for x in xs)]: the first exception aborts the traversal. *)
Fixpoint map_result {A B} (f : A -> result B) (xs : list A) : result (list B) :=
  match xs with
  | [] => Ok []
  | x :: xs' => y <- f x;; ys <- map_result f xs';; Ok (y :: ys)
  end.

(** ** Python [str] methods *)

Module PyStr.

Definition code (c : ascii) : Z := Z.of_N (N_of_ascii c).

(** [str.isspace] on one character (Py_UNICODE_ISSPACE below 256):
    TAB, LF, VT, FF, CR, FS, GS, RS, US, SPACE, NEL and NBSP. *)
Definition isspace (c : ascii) : bool :=
  match c with
  | "009" | "010" | "011" | "012" | "013"
  | "028" | "029" | "030" | "031"
  | " " | "133" | "160" => true
  | _ => false
  end%char.

(** A line boundary of [str.splitlines] below 256. *)
Definition islinebreak (c : ascii) : bool :=
  match c with
  | "010" | "011" | "012" | "013"
  | "028" | "029" | "030" | "133" => true
  | _ => false
  end%char.

Definition is_empty (s : string) : bool :=
  match s with
  | EmptyString => true
  | String _ _ => false
  end.

(** [s[n:]] *)
Fixpoint drop (n : nat) (s : string) : string :=
  match n, s with
  | O, _ => s
  | S _, EmptyString => EmptyString
  | S n', String _ s' => drop n' s'
  end.

(** [s[:n]] *)
Fixpoint take (n : nat) (s : string) : string :=
  match n, s with
  | O, _ => EmptyString
  | S _, EmptyString => EmptyString
  | S n', String c s' => String c (take n' s')
  end.

(** [s.startswith(p)] *)
Fixpoint startswith (p s : string) : bool :=
  match p, s with
  | EmptyString, _ => true
  | String _ _, EmptyString => false
  | String a p', String b s' => if Ascii.eqb a b then startswith p' s' else false
  end.

Definition flush (cur : string) : list string :=
  if is_empty cur then [] else [cur].

(** [s.split()] with no separator: the maximal runs of non-space
    characters; [cur] is the run being read. *)
Fixpoint split_from (cur : string) (s : string) : list string :=
  match s with
  | EmptyString => flush cur
  | String c s' =>
      if isspace c then flush cur ++ split_from EmptyString s'
      else split_from (cur +:+ String c EmptyString) s'
  end.

Definition split (s : string) : list string := split_from EmptyString s.

Fixpoint lstrip (s : string) : string :=
  match s with
  | EmptyString => EmptyString
  | String c s' => if isspace c then lstrip s' else s
  end.

Fixpoint rstrip (s : string) : string :=
  match s with
  | EmptyString => EmptyString
  | String c s' =>
      match rstrip s' with
      | EmptyString => if isspace c then EmptyString else String c EmptyString
      | r => String c r
      end
  end.

(** [s.strip()] *)
Definition strip (s : string) : string := rstrip (lstrip s).

(** [s.splitlines()]: a CR LF pair is one boundary, and a final boundary
    opens no further line. *)
Fixpoint splitlines_from (cur : string) (s : string) : list string :=
  match s with
  | EmptyString => flush cur
  | String c s' =>
      if islinebreak c then
        match c, s' with
        | "013"%char, String "010"%char s'' => cur :: splitlines_from EmptyString s''
        | _, _ => cur :: splitlines_from EmptyString s'
        end
      else splitlines_from (cur +:+ String c EmptyString) s'
  end.

Definition splitlines (s : string) : list string := splitlines_from EmptyString s.

(** [sep.join(xs)] *)
Fixpoint join (sep : string) (xs : list string) : string :=
  match xs with
  | [] => EmptyString
  | [x] => x
  | x :: xs' => x +:+ sep +:+ join sep xs'
  end.

(** [c.lower()] below 256: A-Z and the Latin-1 capitals except the
    multiplication sign. *)
Definition lower_char (c : ascii) : ascii :=
  let n := code c in
  if ((65 <=? n) && (n <=? 90)) || ((192 <=? n) && (n <=? 222) && negb (n =? 215))
  then ascii_of_N (Z.to_N (n + 32))
  else c.

Fixpoint lower (s : string) : string :=
  match s with
  | EmptyString => EmptyString
  | String c s' => String (lower_char c) (lower s')
  end.

(** No character of [s] is white space. *)
Fixpoint nospace (s : string) : bool :=
  match s with
  | EmptyString => true
  | String c s' => negb (isspace c) && nospace s'
  end.

(** Every character of [s] is white space. *)
Fixpoint allspace (s : string) : bool :=
  match s with
  | EmptyString => true
  | String c s' => isspace c && allspace s'
  end.

Fixpoint nolinebreak (s : string) : bool :=
  match s with
  | EmptyString => true
  | String c s' => negb (islinebreak c) && nolinebreak s'
  end.

End PyStr.

(** ** The builtins [int] and [float] applied to a [str] *)

Module PyNum.
Import PyStr.

Definition digit_val (c : ascii) : option Z :=
  let n := code c in
  if (48 <=? n) && (n <=? 57) then Some (n - 48) else None.

(** The white space [int] and [float] skip around a numeral: the ASCII
    [isspace] set, and the non-ASCII spaces, which the conversion first
    rewrites to a blank. *)
Definition num_isspace (c : ascii) : bool :=
  match c with
  | "009" | "010" | "011" | "012" | "013" | " " | "133" | "160" => true
  | _ => false
  end%char.

Fixpoint num_lstrip (s : string) : string :=
  match s with
  | EmptyString => EmptyString
  | String c s' => if num_isspace c then num_lstrip s' else s
  end.

Fixpoint num_rstrip (s : string) : string :=
  match s with
  | EmptyString => EmptyString
  | String c s' =>
      match num_rstrip s' with
      | EmptyString => if num_isspace c then EmptyString else String c EmptyString
      | r => String c r
      end
  end.

Definition num_strip (s : string) : string := num_rstrip (num_lstrip s).

(** The interpreter's default [sys.int_max_str_digits]. *)
Definition int_max_str_digits : Z := 4300.

(** Decimal digits after a first digit, single underscores allowed between
    digits; returns the value and the number of digits read. *)
Fixpoint int_digits (acc : Z) (count : Z) (after_underscore : bool) (s : string)
  : option (Z * Z) :=
  match s with
  | EmptyString => if after_underscore then None else Some (acc, count)
  | String c s' =>
      if Ascii.eqb c "_" then
        if after_underscore then None else int_digits acc count true s'
      else
        match digit_val c with
        | Some d => int_digits (10 * acc + d) (count + 1) false s'
        | None => None
        end
  end.

Definition int_unsigned (s : string) : result Z :=
  match s with
  | EmptyString => Raise ValueError
  | String c s' =>
      match digit_val c with
      | None => Raise ValueError
      | Some d =>
          match int_digits d 1 false s' with
          | None => Raise ValueError
          | Some (v, n) =>
              if int_max_str_digits <? n then Raise ValueError else Ok v
          end
      end
  end.

(** [int(s)] for a [str] in base ten. *)
Definition py_int (s : string) : result Z :=
  match num_strip s with
  | String "+" r => int_unsigned r
  | String "-" r => v <- int_unsigned r;; Ok (- v)
  | r => int_unsigned r
  end.

(** [int(x)] where [x] may be [None], as a missing header is. *)
Definition py_int_opt (x : option string) : result Z :=
  match x with
  | None => Raise TypeError
  | Some s => py_int s
  end.

(** *** [float(s)] *)

Definition is_digit (c : ascii) : bool :=
  match digit_val c with Some _ => true | None => false end.

(** Underscores may stand only between two digits; they are dropped. *)
Fixpoint drop_underscores (prev : option ascii) (s : string) : option string :=
  match s with
  | EmptyString =>
      match prev with
      | Some "_"%char => None
      | _ => Some EmptyString
      end
  | String c s' =>
      if Ascii.eqb c "_" then
        match prev with
        | Some p => if is_digit p then drop_underscores (Some c) s' else None
        | None => None
        end
      else
        match prev with
        | Some "_"%char =>
            if is_digit c
            then option_map (String c) (drop_underscores (Some c) s')
            else None
        | _ => option_map (String c) (drop_underscores (Some c) s')
        end
  end.

(** The leading digits of [s]: their value, their number, and the rest. *)
Fixpoint read_digits (acc : Z) (count : Z) (s : string) : Z * Z * string :=
  match s with
  | EmptyString => (acc, count, s)
  | String c s' =>
      match digit_val c with
      | Some d => read_digits (10 * acc + d) (count + 1) s'
      | None => (acc, count, s)
      end
  end.

Definition read_sign (s : string) : bool * string :=
  match s with
  | String "+" r => (false, r)
  | String "-" r => (true, r)
  | _ => (false, s)
  end.

(** The binary64 nearest to [(-1)^neg * m * 10^e10], ties to even. *)
Definition round_decimal (neg : bool) (m : Z) (e10 : Z) : spec_float :=
  if m =? 0 then S754_zero neg
  else if 0 <=? e10 then
    binary_normalize 53 1024 ((if neg then - m else m) * 10 ^ e10) 0 neg
  else
    SFdiv 53 1024 (S754_finite neg (Z.to_pos m) 0)
                  (S754_finite false (Z.to_pos (10 ^ (- e10))) 0).

(** An optional exponent part [e|E [sign] digits], then the end. *)
Definition read_exponent (s : string) : option Z :=
  match s with
  | EmptyString => Some 0
  | String c r =>
      if Ascii.eqb c "e" || Ascii.eqb c "E" then
        let '(eneg, r1) := read_sign r in
        match read_digits 0 0 r1 with
        | (e, n, EmptyString) =>
            if 0 <? n then Some (if eneg then - e else e) else None
        | _ => None
        end
      else None
  end.

Definition float_unsigned (neg : bool) (s : string) : result spec_float :=
  let name := lower s in
  if String.eqb name "inf" || String.eqb name "infinity" then Ok (S754_infinity neg)
  else if String.eqb name "nan" then Ok S754_nan
  else
    let '(ip, ni, r1) := read_digits 0 0 s in
    let '(m, nf, r2) :=
      match r1 with
      | String "." r => let '(m, n, r') := read_digits ip 0 r in (m, n, r')
      | _ => (ip, 0, r1)
      end in
    if 0 <? ni + nf then
      match read_exponent r2 with
      | Some e => Ok (round_decimal neg m (e - nf))
      | None => Raise ValueError
      end
    else Raise ValueError.

(** [float(s)] for a [str]. *)
Definition py_float (s : string) : result float :=
  match drop_underscores None (num_strip s) with
  | None => Raise ValueError
  | Some t =>
      let '(neg, r) := read_sign t in
      x <- float_unsigned neg r;; Ok (SF2Prim x)
  end.

End PyNum.

(** ** [src/__init__.py] *)

Module Addon.
Import PyStr PyNum.

(** [tuple(map(float, line[2:].split()))] *)
Definition _obj_vertex_to_bpy (line : string) : result (list float) :=
  map_result py_float (split (drop 2 line)).

(** [tuple((int(x) - 1) for x in line[2:].split())] *)
Definition _obj_face_to_bpy (line : string) : result (list Z) :=
  map_result (fun x => n <- py_int x;; Ok (n - 1)) (split (drop 2 line)).

Definition vertex : Type := list float.
Definition face : Type := list Z.

(** What [GenerateMesh.execute] holds while it runs: the name given to
    [bpy.data.meshes.new] and [bpy.data.objects.new], the local lists
    [verts], [edges] and [faces], the geometry last handed to
    [mesh.from_pydata] ([None] after [clear_geometry] alone), and the
    number of viewport redraws. *)
Record ExecState : Type := {
  mesh_name : string;
  object_name : string;
  verts : list vertex;
  edges : list face;
  faces : list face;
  geometry : option (list vertex * list face * list face);
  redraws : nat
}.

Definition new_state (name : string) : ExecState :=
  {| mesh_name := name; object_name := name;
     verts := []; edges := []; faces := [];
     geometry := None; redraws := 0 |}.

Definition with_lists (st : ExecState) (vs : list vertex) (fs : list face)
  : ExecState :=
  {| mesh_name := mesh_name st; object_name := object_name st;
     verts := vs; edges := edges st; faces := fs;
     geometry := geometry st; redraws := redraws st |}.

Definition with_geometry (st : ExecState)
    (g : option (list vertex * list face * list face)) (n : nat) : ExecState :=
  {| mesh_name := mesh_name st; object_name := object_name st;
     verts := verts st; edges := edges st; faces := faces st;
     geometry := g; redraws := n |}.

(** The same state under another name. *)
Definition rename (name : string) (st : ExecState) : ExecState :=
  {| mesh_name := name; object_name := name;
     verts := verts st; edges := edges st; faces := faces st;
     geometry := geometry st; redraws := redraws st |}.

Section Execute.

(** Blender's [Mesh.from_pydata] is host code: whether it raises on the
    lists it is given is left open. *)
Variable from_pydata_raises :
  list vertex -> list face -> list face -> option exn.

(** [mesh.clear_geometry(); mesh.from_pydata(verts, edges, faces); _redraw()] *)
Definition rebuild (st : ExecState) : ExecState * option exn :=
  match from_pydata_raises (verts st) (edges st) (faces st) with
  | Some e => (with_geometry st None (redraws st), Some e)
  | None =>
      (with_geometry st (Some (verts st, edges st, faces st)) (S (redraws st)),
       None)
  end.

(** One turn of the loop [for line in iterator]. *)
Definition scan_line (st : ExecState) (line : string) : ExecState * option exn :=
  if startswith "v " line then
    match _obj_vertex_to_bpy line with
    | Raise e => (st, Some e)
    | Ok v => rebuild (with_lists st (verts st ++ [v]) (faces st))
    end
  else if startswith "f " line then
    match _obj_face_to_bpy line with
    | Raise e => (st, Some e)
    | Ok f => rebuild (with_lists st (verts st) (faces st ++ [f]))
    end
  else (st, None).

Fixpoint scan (st : ExecState) (lines : list string) : ExecState * option exn :=
  match lines with
  | [] => (st, None)
  | line :: rest =>
      match scan_line st line with
      | (st', None) => scan st' rest
      | (st', Some e) => (st', Some e)
      end
  end.

(** [GenerateMesh.execute], the iterator being given by the lines it
    yields and by how it ends ([None]: exhausted, [Some e]: it raises
    [e] after the last line).  The state is [None] when no mesh was
    created. *)
Definition execute (lines : list string) (ending : option exn)
  : option ExecState * result unit :=
  match lines with
  | [] =>
      (None, Raise (match ending with Some e => e | None => StopIteration end))
  | first :: rest =>
      let name := join "_" (map lower (split (strip first))) in
      match scan (new_state name) rest with
      | (st, Some e) => (Some st, Raise e)
      | (st, None) =>
          match ending with
          | Some e => (Some st, Raise e)
          | None => (Some st, Ok tt)
          end
      end
  end.

End Execute.

End Addon.

(** ** [src/llama_cpp_wrapper/_wrapper.py] *)

Module Wrapper.
Import PyStr PyNum.

Definition bytes : Type := string.

(** *** The outside world *)

(** One call of [resp.read(524288)]: a chunk of the body, or a failure of
    the connection.  After the last element [read] returns the empty bytes. *)
Inductive read_result : Type :=
  | Data (chunk : bytes)
  | ReadFails (e : exn).

(** An [HTTPResponse]: the parsed header fields, in order, and the
    results of the successive reads. *)
Record Response : Type := {
  headers : list (string * string);
  body : list read_result
}.

(** What [print] wrote: a plain line, or one progress line made of the
    baked message, the progress text and the spinner character.  The
    progress text is [None] for the empty text and [Some (tell, size)]
    for the percentage of [tell] in [size]. *)
Inductive print_event : Type :=
  | PrintLine (text : string)
  | PrintProgress (msg : string) (progress : option (Z * Z)) (spinner : ascii).

(** The environment of the module: the platform, the package directory,
    the network (a request is answered according to the requests made
    before it), the content of a zip archive (each member's bytes, or the
    error reading it raises), the program a command line starts with the
    lines it writes to its standard output, and UTF-8 decoding. *)
Record Env : Type := {
  platform_system : string;
  platform_machine : string;
  root : string;
  urlopen : list string -> string -> result Response;
  zip_members : bytes -> result (list (string * result bytes));
  popen : string -> result (list bytes);
  decode_utf8 : bytes -> result string
}.

(** The files the module owns: the text stored in the version marker, the
    files of [bin/] and of [gguf/] by name; and what it did to the
    outside: the URLs it opened and what it printed. *)
Record World : Type := {
  ver_info : string;
  bin_dir : gmap string bytes;
  gguf_dir : gmap string bytes;
  requests : list string;
  console : list print_event
}.

Definition set_ver_info (w : World) (s : string) : World :=
  {| ver_info := s; bin_dir := bin_dir w; gguf_dir := gguf_dir w;
     requests := requests w; console := console w |}.

Definition set_bin_dir (w : World) (d : gmap string bytes) : World :=
  {| ver_info := ver_info w; bin_dir := d; gguf_dir := gguf_dir w;
     requests := requests w; console := console w |}.

Definition set_gguf_dir (w : World) (d : gmap string bytes) : World :=
  {| ver_info := ver_info w; bin_dir := bin_dir w; gguf_dir := d;
     requests := requests w; console := console w |}.

Definition add_request (w : World) (url : string) : World :=
  {| ver_info := ver_info w; bin_dir := bin_dir w; gguf_dir := gguf_dir w;
     requests := requests w ++ [url]; console := console w |}.

Definition print (w : World) (ev : print_event) : World :=
  {| ver_info := ver_info w; bin_dir := bin_dir w; gguf_dir := gguf_dir w;
     requests := requests w; console := console w ++ [ev] |}.

(** *** [pathlib] *)

(** The components of a path: the pieces between slashes, the empty ones
    and the single dots left out. *)
Fixpoint path_parts_from (cur : string) (s : string) : list string :=
  let close := if is_empty cur || String.eqb cur "." then [] else [cur] in
  match s with
  | EmptyString => close
  | String c s' =>
      if Ascii.eqb c "/" then close ++ path_parts_from EmptyString s'
      else path_parts_from (cur +:+ String c EmptyString) s'
  end.

(** [pathlib.Path(p).name] *)
Definition path_name (p : string) : string :=
  List.last (path_parts_from EmptyString p) EmptyString.

(** [name.rfind(".")] *)
Fixpoint rfind_dot (name : string) : option nat :=
  match name with
  | EmptyString => None
  | String c rest =>
      match rfind_dot rest with
      | Some i => Some (S i)
      | None => if Ascii.eqb c "." then Some O else None
      end
  end.

(** [PurePath.suffix] of a path whose last component is [name]. *)
Definition suffix (name : string) : string :=
  match rfind_dot name with
  | Some i =>
      if (0 <? i)%nat && (i <? String.length name - 1)%nat then drop i name
      else EmptyString
  | None => EmptyString
  end.

(** The last component of [path.with_suffix(new_suffix)]. *)
Definition with_suffix (name : string) (new_suffix : string) : result string :=
  if is_empty name then Raise ValueError
  else
    let old := suffix name in
    if is_empty old then Ok (name +:+ new_suffix)
    else Ok (take (String.length name - String.length old) name +:+ new_suffix).

(** [str(directory / name)] *)
Definition path_sep (env : Env) : string :=
  if String.eqb (platform_system env) "Windows" then "\" else "/".

Definition join_path (env : Env) (dir name : string) : string :=
  if is_empty name then dir else dir +:+ path_sep env +:+ name.

(** [(directory / name).exists()] for a directory that exists and whose
    files are [files]: the empty name denotes the directory itself and
    [..] its parent. *)
Definition is_directory_name (name : string) : bool :=
  is_empty name || String.eqb name "..".

Definition path_exists (files : gmap string bytes) (name : string) : bool :=
  is_directory_name name || bool_decide (is_Some (files !! name)).

(** *** Text files *)

(** Reading in text mode turns CR LF and a lone CR into LF: every CR is
    read as LF, and an LF that comes right after a CR is dropped
    ([after_cr] is the decoder's pending-CR flag). *)
Fixpoint translate_read (after_cr : bool) (s : string) : string :=
  match s with
  | EmptyString => EmptyString
  | String c s' =>
      if Ascii.eqb c "013" then String "010" (translate_read true s')
      else if Ascii.eqb c "010" then
        if after_cr then translate_read false s'
        else String "010" (translate_read false s')
      else String c (translate_read false s')
  end.

Definition universal_newlines (s : string) : string := translate_read false s.

(** [os.linesep] *)
Definition linesep (env : Env) : string :=
  if String.eqb (platform_system env) "Windows"
  then String "013" (String "010" EmptyString)
  else String "010" EmptyString.

(** Writing in text mode turns LF into [os.linesep]. *)
Fixpoint translate_newlines (sep : string) (s : string) : string :=
  match s with
  | EmptyString => EmptyString
  | String c s' =>
      if Ascii.eqb c "010" then sep +:+ translate_newlines sep s'
      else String c (translate_newlines sep s')
  end.

Definition read_text (stored : string) : string := universal_newlines stored.

Definition write_text (env : Env) (text : string) : string :=
  translate_newlines (linesep env) text.

(** *** Configuration and globals *)

Definition _LLAMA_CPP_BUILD : string := "b4227".

Definition _LLAMA_CPP_PARAM : string := join " " ["-ngl 999"; "-fa"].

Definition _SYSTEM_TO_FILE_NAME : gmap string string :=
  list_to_map [("Linux", "ubuntu"); ("Windows", "win-vulkan"); ("Darwin", "macos")].

Definition _ARCH_TO_FILE_NAME : gmap string string :=
  list_to_map [("AMD64", "x64"); ("x86_64", "x64"); ("arm64", "arm64")].

(** [d[k]] *)
Definition getitem (d : gmap string string) (k : string) : result string :=
  match d !! k with
  | Some v => Ok v
  | None => Raise KeyError
  end.

Definition _BINARY_ZIP_NAME (env : Env) : result string :=
  system <- getitem _SYSTEM_TO_FILE_NAME (platform_system env);;
  arch <- getitem _ARCH_TO_FILE_NAME (platform_machine env);;
  Ok ("llama-" +:+ _LLAMA_CPP_BUILD +:+ "-bin-" +:+ system +:+ "-" +:+ arch +:+ ".zip").

Definition _BINARY_URL (env : Env) : result string :=
  file <- _BINARY_ZIP_NAME env;;
  Ok ("https://github.com/ggerganov/llama.cpp/releases/download/"
        +:+ _LLAMA_CPP_BUILD +:+ "/" +:+ file).

Definition _BINARY_FILE_NAME (env : Env) : result string :=
  getitem (list_to_map [("Windows", "llama-cli.exe"); ("Linux", "llama-cli");
                        ("Darwin", "llama-cli")])
          (platform_system env).

Definition _BINARY_DIR (env : Env) : string := join_path env (root env) "bin".
Definition _GGUF_DIR (env : Env) : string := join_path env (root env) "gguf".

(** *** [_progressive_download] *)

(** [resp.headers[name]]: the first field of that name, letter case
    ignored, or [None]. *)
Fixpoint get_header (hs : list (string * string)) (name : string) : option string :=
  match hs with
  | [] => None
  | (k, v) :: rest =>
      if String.eqb (lower k) (lower name) then Some v else get_header rest name
  end.

(** [next(cycler)] for [itertools.cycle] over the four spinner
    characters, at the [n]-th call. *)
Definition cycler (n : nat) : ascii :=
  match (n mod 4)%nat with
  | 0%nat => "-"
  | 1%nat => "092"
  | 2%nat => "|"
  | _ => "/"
  end%char.

(** [save_file.tell()] *)
Definition tell (save_file : bytes) : Z := Z.of_nat (String.length save_file).

(** [get_progress_text()] *)
Definition get_progress_text (size : Z) (save_file : bytes) : option (Z * Z) :=
  if size =? 0 then None else Some (tell save_file, size).

(** [while chunk := resp.read(524288): print(...); save_file.write(chunk)] *)
Fixpoint download_loop (msg : string) (size : Z) (turn : nat)
    (reads : list read_result) (save_file : bytes) (out : list print_event)
  : bytes * list print_event * option exn :=
  match reads with
  | [] => (save_file, out, None)
  | ReadFails e :: _ => (save_file, out, Some e)
  | Data chunk :: rest =>
      if is_empty chunk then (save_file, out, None)
      else
        download_loop msg size (S turn) rest (save_file +:+ chunk)
          (out ++ [PrintProgress msg (get_progress_text size save_file) (cycler turn)])
  end.

(** [_progressive_download(url, save_file)]: the world after the call, the
    content of [save_file] after it, and the exception raised, if any. *)
Definition _progressive_download (env : Env) (w : World) (url : string)
    (save_file : bytes) : World * bytes * option exn :=
  let w1 := add_request w url in
  match urlopen env (requests w) url with
  | Raise e => (w1, save_file, Some e)
  | Ok resp =>
      let baked_msg := "Downloading " +:+ path_name url in
      match py_int_opt (get_header (headers resp) "Content-Length") with
      | Raise e => (w1, save_file, Some e)
      | Ok size =>
          let '(saved, out, r) :=
            download_loop baked_msg size 0 (body resp) save_file [] in
          let w2 := fold_left print out w1 in
          match r with
          | Some e => (w2, saved, Some e)
          | None => (print w2 (PrintLine EmptyString), saved, None)
          end
      end
  end.

(** *** [_ensure_binary] *)

(** The loop over [zip_ref.namelist()]: each member is written under its
    last path component. *)
Fixpoint extract (members : list (string * result bytes))
    (dir : gmap string bytes) : gmap string bytes * option exn :=
  match members with
  | [] => (dir, None)
  | (zipped_file, content) :: rest =>
      match content with
      | Raise e => (dir, Some e)
      | Ok data =>
          let name := path_name zipped_file in
          if is_directory_name name then (dir, Some IsADirectoryError)
          else extract rest (<[name := data]> dir)
      end
  end.

(** The two values read from the marker: [_content[0]] and
    [_content[1]], or two empty strings for an empty [_content]. *)
Definition old_binary (_content : list string) : result (string * string) :=
  match _content with
  | [] => Ok (EmptyString, EmptyString)
  | first :: rest =>
      match rest with
      | [] => Raise IndexError
      | second :: _ => Ok (first, second)
      end
  end.

(** [_ensure_binary()], with the value [binary_url] of the global
    [_BINARY_URL]. *)
Definition _ensure_binary (env : Env) (binary_url : string) (w : World)
  : World * result unit :=
  let w := print w (PrintLine "Checking for llama.cpp binary") in
  let _content := splitlines (strip (read_text (ver_info w))) in
  match old_binary _content with
  | Raise e => (w, Raise e)
  | Ok (old_binary_os, old_binary_build) =>
      if String.eqb old_binary_os (platform_system env)
         && String.eqb old_binary_build _LLAMA_CPP_BUILD
      then (w, Ok tt)
      else
        let w := print w (PrintLine "Downloading new llama.cpp binary") in
        let w := set_bin_dir w ∅ in
        let '(w, zip_data, r) := _progressive_download env w binary_url EmptyString in
        match r with
        | Some e => (w, Raise e)
        | None =>
            match zip_members env zip_data with
            | Raise e => (w, Raise e)
            | Ok members =>
                match extract members (bin_dir w) with
                | (dir, Some e) => (set_bin_dir w dir, Raise e)
                | (dir, None) =>
                    let w := set_bin_dir w dir in
                    let text :=
                      platform_system env +:+ String "010" EmptyString
                        +:+ _LLAMA_CPP_BUILD in
                    (set_ver_info w (write_text env text), Ok tt)
                end
            end
        end
  end.

(** *** [_ensure_gguf] *)

Definition _ensure_gguf (env : Env) (model_url : string) (w : World)
  : World * result unit :=
  let w := print w (PrintLine "Checking for gguf file") in
  let model_name := path_name model_url in
  if path_exists (gguf_dir w) model_name then (w, Ok tt)
  else
    let w := print w (PrintLine "Downloading new gguf file") in
    match with_suffix model_name ".temp" with
    | Raise e => (w, Raise e)
    | Ok dl_name =>
        (* dl_path.open("wb") *)
        let w := set_gguf_dir w (<[dl_name := EmptyString]> (gguf_dir w)) in
        let '(w, written, r) := _progressive_download env w model_url EmptyString in
        let w := set_gguf_dir w (<[dl_name := written]> (gguf_dir w)) in
        match r with
        | Some e => (w, Raise e)
        | None =>
            (* dl_path.rename(model_path) *)
            (set_gguf_dir w (<[model_name := written]> (delete dl_name (gguf_dir w))),
             Ok tt)
        end
    end.

(** *** [LlamaCppWrapper] *)

(** The attributes [binary_path] and [model_path], as [str]. *)
Record LlamaCppWrapper : Type := {
  binary_path : string;
  model_path : string
}.

Definition double_quote : ascii := "034".

Definition quoted (s : string) : string :=
  String double_quote (s +:+ String double_quote EmptyString).

(** The f-string given to [subprocess.Popen]. *)
Definition command_line (self : LlamaCppWrapper) (prompt : string)
    (args : list string) : string :=
  quoted (binary_path self) +:+ " " +:+ _LLAMA_CPP_PARAM +:+ " "
    +:+ join " " args +:+ " -m " +:+ quoted (model_path self)
    +:+ " -p " +:+ quoted prompt.

(** The subprocess: its command line, the lines still to be read from its
    standard output, and whether [wait] and [kill] were called on it. *)
Record Process : Type := {
  cmdline : string;
  stdout : list bytes;
  waited : bool;
  killed : bool
}.

Definition advance (p : Process) (rest : list bytes) : Process :=
  {| cmdline := cmdline p; stdout := rest; waited := waited p; killed := killed p |}.

Definition wait (p : Process) : Process :=
  {| cmdline := cmdline p; stdout := stdout p; waited := true; killed := killed p |}.

Definition kill (p : Process) : Process :=
  {| cmdline := cmdline p; stdout := stdout p; waited := waited p; killed := true |}.

(** How a stretch of the generator body ends. *)
Inductive step : Type :=
  | Yields (line : string)
  | Returns
  | Raises (e : exn).

(** The generator object of [generate_oneshot]: not yet started,
    suspended at the [yield] with its subprocess, or finished (with the
    subprocess, if one was started).  [printed] are the lines the body
    printed. *)
Inductive frame : Type :=
  | NotStarted
  | AtYield (p : Process)
  | Finished (p : option Process).

Record Generator : Type := {
  self : LlamaCppWrapper;
  prompt : string;
  args : list string;
  at_ : frame;
  printed : list string
}.

Definition generate_oneshot (self : LlamaCppWrapper) (prompt : string)
    (args : list string) : Generator :=
  {| self := self; prompt := prompt; args := args;
     at_ := NotStarted; printed := [] |}.

Definition goto (g : Generator) (f : frame) (out : list string) : Generator :=
  {| self := self g; prompt := prompt g; args := args g;
     at_ := f; printed := printed g ++ out |}.

(** The [try] block, entered at its top or resumed after the [yield]:
    [thrown] is the exception the consumer raised at the [yield], if any.
    One turn of [while line := process.stdout.readline()] and, when the
    loop ends, [process.wait()]. *)
Definition try_block (env : Env) (thrown : option exn) (p : Process)
  : Process * list string * step :=
  match thrown with
  | Some e => (p, [], Raises e)
  | None =>
      match stdout p with
      | [] => (wait p, [], Returns)
      | line :: rest =>
          let p := advance p rest in
          if is_empty line then (wait p, [], Returns)
          else
            match decode_utf8 env line with
            | Raise e => (p, [], Raises e)
            | Ok text => (p, [text], Yields (strip text))
            end
      end
  end.

(** [try: ... finally: process.kill()]: the [finally] clause runs when
    control leaves the [try] block, not when the block suspends. *)
Definition try_finally (r : Process * list string * step) : frame * list string * step :=
  let '(p, out, s) := r in
  match s with
  | Yields line => (AtYield p, out, s)
  | Returns => (Finished (Some (kill p)), out, s)
  | Raises e => (Finished (Some (kill p)), out, s)
  end.

(** What a call on the generator gives back to its caller. *)
Definition outcome (s : step) : result string :=
  match s with
  | Yields line => Ok line
  | Returns => Raise StopIteration
  | Raises e => Raise e
  end.

Definition resume (env : Env) (g : Generator) (thrown : option exn) (p : Process)
  : Generator * result string :=
  let '(f, out, s) := try_finally (try_block env thrown p) in
  (goto g f out, outcome s).

(** [next(gen)] *)
Definition gen_next (env : Env) (g : Generator) : Generator * result string :=
  match at_ g with
  | NotStarted =>
      let cmd := command_line (self g) (prompt g) (args g) in
      match popen env cmd with
      | Raise e => (goto g (Finished None) [], Raise e)
      | Ok lines =>
          resume env g None
            {| cmdline := cmd; stdout := lines; waited := false; killed := false |}
      end
  | AtYield p => resume env g None p
  | Finished _ => (g, Raise StopIteration)
  end.

(** [gen.throw(e)]: the exception is raised at the point where the
    generator is suspended. *)
Definition gen_throw (env : Env) (g : Generator) (e : exn)
  : Generator * result string :=
  match at_ g with
  | NotStarted => (goto g (Finished None) [], Raise e)
  | AtYield p => resume env g (Some e) p
  | Finished _ => (g, Raise e)
  end.

(** [gen.close()], also run when a suspended generator is finalized:
    [GeneratorExit] is thrown in. *)
Definition gen_close (env : Env) (g : Generator) : Generator :=
  fst (gen_throw env g GeneratorExit).

(** What the consumer may do with the generator. *)
Inductive operation : Type :=
  | Next
  | Throw (e : exn)
  | Close.

Definition apply_operation (env : Env) (g : Generator) (op : operation)
  : Generator :=
  match op with
  | Next => fst (gen_next env g)
  | Throw e => fst (gen_throw env g e)
  | Close => gen_close env g
  end.

(** [LlamaCppWrapper(model_url)]: the class body has run [_ensure_binary]
    when the module was imported; [__init__] runs [_ensure_gguf]. *)
Definition new_wrapper (env : Env) (model_url : string) (w : World)
  : World * result LlamaCppWrapper :=
  match _BINARY_FILE_NAME env with
  | Raise e => (w, Raise e)
  | Ok file_name =>
      let this :=
        {| binary_path := join_path env (_BINARY_DIR env) file_name;
           model_path := join_path env (_GGUF_DIR env) (path_name model_url) |} in
      match _ensure_gguf env model_url w with
      | (w', Ok _) => (w', Ok this)
      | (w', Raise e) => (w', Raise e)
      end
  end.

(** Importing the module: the globals are computed, then the class body
    calls [_ensure_binary]. *)
Definition import_module (env : Env) (w : World) : World * result unit :=
  match _BINARY_URL env with
  | Raise e => (w, Raise e)
  | Ok url =>
      match _BINARY_FILE_NAME env with
      | Raise e => (w, Raise e)
      | Ok _ => _ensure_binary env url w
      end
  end.

End Wrapper.

(** ** Notions used to state the properties *)

Module Notions.
Import PyStr Wrapper.

(** The bytes a body delivers before its end: the chunks up to the first
    empty one. *)
Fixpoint body_bytes (reads : list read_result) : bytes :=
  match reads with
  | Data chunk :: rest =>
      if is_empty chunk then EmptyString else chunk +:+ body_bytes rest
  | _ => EmptyString
  end.

(** No read fails before the end of the body. *)
Fixpoint body_complete (reads : list read_result) : bool :=
  match reads with
  | [] => true
  | Data chunk :: rest => is_empty chunk || body_complete rest
  | ReadFails _ :: _ => false
  end.

(** A printed event carries no percentage. *)
Definition without_percentage (ev : print_event) : bool :=
  match ev with
  | PrintLine _ => true
  | PrintProgress _ None _ => true
  | PrintProgress _ (Some _) _ => false
  end.

(** The decimal numeral written with the digits [ds], and its value. *)
Definition digit_char (d : Z) : ascii := ascii_of_N (Z.to_N (48 + d)).

Fixpoint numeral (ds : list Z) : string :=
  match ds with
  | [] => EmptyString
  | d :: rest => String (digit_char d) (numeral rest)
  end.

Definition numeral_value (ds : list Z) : Z :=
  fold_left (fun acc d => 10 * acc + d) ds 0.

(** A nonempty sequence of decimal digits, short enough for [int]. *)
Definition digits (ds : list Z) : Prop :=
  ds <> [] /\ Forall (fun d => 0 <= d <= 9) ds
  /\ Z.of_nat (length ds) <= PyNum.int_max_str_digits.

Definition starts_nonspace (s : string) : bool :=
  match s with
  | EmptyString => false
  | String c _ => negb (isspace c)
  end.

Fixpoint ends_nonspace (s : string) : bool :=
  match s with
  | EmptyString => false
  | String c EmptyString => negb (isspace c)
  | String _ s' => ends_nonspace s'
  end.

(** The marker records the current platform on its first line and the
    target build on its second. *)
Definition marker_matches (env : Env) (lines : list string) : Prop :=
  lines !! 0%nat = Some (platform_system env)
  /\ lines !! 1%nat = Some _LLAMA_CPP_BUILD.

(** The world once the first message of [_ensure_binary] is printed. *)
Definition checking (w : World) : World :=
  print w (PrintLine "Checking for llama.cpp binary").

(** The text [_ensure_binary] writes to the marker. *)
Definition current_marker (env : Env) : string :=
  platform_system env +:+ String "010" EmptyString +:+ _LLAMA_CPP_BUILD.

(** A finished generator with a subprocess has killed it, and the
    subprocess of a generator was started with the command line of its
    call. *)
Definition settled (g : Generator) : Prop :=
  match at_ g with
  | NotStarted => True
  | AtYield p => cmdline p = command_line (self g) (prompt g) (args g)
  | Finished None => True
  | Finished (Some p) =>
      killed p = true /\ cmdline p = command_line (self g) (prompt g) (args g)
  end.

End Notions.

(** ** Sample environments *)

Module Samples.
Import Wrapper.

Definition empty_world : World :=
  {| ver_info := EmptyString; bin_dir := ∅; gguf_dir := ∅;
     requests := []; console := [] |}.

Definition world_with_marker (text : string) : World :=
  set_ver_info empty_world text.

(** A Linux machine on which every request is answered by [answer], every
    archive holds the one executable, and the program prints [lines]. *)
Definition linux_env (answer : result Response) (lines : list bytes) : Env :=
  {| platform_system := "Linux";
     platform_machine := "x86_64";
     root := "/addon";
     urlopen := fun _ _ => answer;
     zip_members := fun _ => Ok [("build/bin/llama-cli", Ok "ELF")];
     popen := fun _ => Ok lines;
     decode_utf8 := fun b => Ok b |}.

Definition linux_binary_url : string :=
  "https://github.com/ggerganov/llama.cpp/releases/download/b4227/llama-b4227-bin-ubuntu-x64.zip".

Definition sized_response : Response :=
  {| headers := [("Content-Type", "application/zip"); ("Content-Length", "5")];
     body := [Data "PK"; Data "zip"] |}.

Definition unsized_response : Response :=
  {| headers := [("Content-Type", "application/zip")];
     body := [Data "PK"; Data "zip"] |}.

Definition zero_sized_response : Response :=
  {| headers := [("content-length", "0")];
     body := [Data "PK"; Data "zip"] |}.

(** A response whose connection breaks after the first chunk. *)
Definition broken_response : Response :=
  {| headers := [("Content-Length", "10")];
     body := [Data "GGUF"; ReadFails OSError] |}.

End Samples.

(** ** Further notions *)

Module Measures.
Import PyStr PyNum Addon Wrapper.

(** The lines the loop of [execute] acts on. *)
Definition is_vertex_line (line : string) : bool := startswith "v " line.

Definition is_face_line (line : string) : bool :=
  negb (startswith "v " line) && startswith "f " line.

Definition is_obj_line (line : string) : bool :=
  startswith "v " line || startswith "f " line.

Definition count_lines (p : string -> bool) (lines : list string) : nat :=
  length (filter (fun l => p l = true) lines).




(** A path made of slashes only. *)
Fixpoint only_slashes (s : string) : bool :=
  match s with
  | EmptyString => true
  | String c s' => Ascii.eqb c "/" && only_slashes s'
  end.

(** The platforms and machines the tables of the module know. *)
Definition supported_systems : list string := ["Linux"; "Windows"; "Darwin"].
Definition supported_machines : list string := ["AMD64"; "x86_64"; "arm64"].



(** The lines a generator yields from the output [raw] of its subprocess,
    and how it ends: [None] at the end of the output, [Some e] when
    decoding a line raises [e]. *)
Fixpoint stream_of (env : Env) (raw : list bytes) : list string * option exn :=
  match raw with
  | [] => ([], None)
  | line :: rest =>
      if is_empty line then ([], None)
      else
        match decode_utf8 env line with
        | Raise e => ([], Some e)
        | Ok text =>
            let '(lines, ending) := stream_of env rest in
            (strip text :: lines, ending)
        end
  end.

(** The exception a generator raises at its end. *)
Definition ending_exn (ending : option exn) : exn :=
  match ending with
  | Some e => e
  | None => StopIteration
  end.

(** How the loop of [execute] ends when its body raised nothing. *)
Definition loop_result (ending : option exn) : result unit :=
  match ending with
  | None => Ok tt
  | Some e => Raise e
  end.

End Measures.

(** ** The operator running over the generator *)

Module Operator.
Import PyStr PyNum Addon Wrapper.

(** [n] calls of [next(gen)] in a row: the generator after them and what
    each call gave. *)
Fixpoint nexts (env : Env) (n : nat) (g : Generator)
  : Generator * list (result string) :=
  match n with
  | O => (g, [])
  | S n' =>
      let '(g1, r) := gen_next env g in
      let '(g2, rs) := nexts env n' g1 in
      (g2, r :: rs)
  end.

Section Run.

Variable env : Env.
Variable from_pydata_raises : list vertex -> list face -> list face -> option exn.

(** [for line in iterator: ...] of [execute] with the generator as the
    iterator: [StopIteration] from [next] ends the loop, any other
    exception leaves it, and so does one raised by the body.  [fuel] bounds
    the number of turns; [None] means it ran out. *)
Fixpoint for_lines (fuel : nat) (g : Generator) (st : ExecState)
  : option (Generator * ExecState * result unit) :=
  match fuel with
  | O => None
  | S fuel' =>
      match gen_next env g with
      | (g', Raise StopIteration) => Some (g', st, Ok tt)
      | (g', Raise e) => Some (g', st, Raise e)
      | (g', Ok line) =>
          match scan_line from_pydata_raises st line with
          | (st', None) => for_lines fuel' g' st'
          | (st', Some e) => Some (g', st', Raise e)
          end
      end
  end.

(** [GenerateMesh.execute] with the generator as the iterator.  The
    iterator of the operator hands every call over to this generator with
    [yield from], once the wrapper is built. *)
Definition execute_over (fuel : nat) (g : Generator)
  : option (Generator * option ExecState * result unit) :=
  match gen_next env g with
  | (g', Raise e) => Some (g', None, Raise e)
  | (g', Ok first) =>
      let name := join "_" (map lower (split (strip first))) in
      match for_lines fuel g' (new_state name) with
      | None => None
      | Some (g'', st, r) => Some (g'', Some st, r)
      end
  end.

End Run.

End Operator.

(** ** [_etc/_generate_addon_bundle.py] *)

Module Bundle.
Import PyStr Wrapper.

(** A file tree: a regular file, or a directory with its entries in the
    order [iterdir] gives them. *)
Local Unset Elimination Schemes.
Inductive node : Type :=
  | File (name : string) (content : bytes)
  | Dir (name : string) (children : list node).
Local Set Elimination Schemes.

Definition node_name (n : node) : string :=
  match n with
  | File name _ => name
  | Dir name _ => name
  end.

Inductive os_error : Type :=
  | NotADirectoryError
  | FileNotFoundError.

Definition ADDON_NAME : string := "llama-mesh-blender".

(** The default value of the parameter [ext_whitelist]. *)
Definition default_ext_whitelist : list string := [".py"].

(** [path.suffix in ext_whitelist], for a path whose last component is
    [name]. *)
Definition suffix_in (name : string) (ext_whitelist : list string) : bool :=
  existsb (String.eqb (suffix name)) ext_whitelist.

(** What a generator of paths gives when it is read to its end: the paths
    it yields and the error that ends it, if any. *)
Definition paths : Type := list (list string) * option os_error.

Section Children.

Variable visit : node -> paths.

(** [for child in path.iterdir(): yield from visit(child)] *)
Fixpoint for_children (children : list node) : paths :=
  match children with
  | [] => ([], None)
  | child :: rest =>
      match visit child with
      | (ys, Some e) => (ys, Some e)
      | (ys, None) => let '(zs, r) := for_children rest in (ys ++ zs, r)
      end
  end.

End Children.

(** [fetch_src_recursive_gen(path, ext_whitelist)] where [path], given by
    its components, leads to the node [n].  A regular file with a listed
    suffix is yielded; anything else is iterated as a directory, which
    fails on a regular file; the recursive calls pass no whitelist. *)
Fixpoint fetch_src_recursive_gen (path : list string) (n : node)
    (ext_whitelist : list string) : paths :=
  match n with
  | File name _ =>
      if suffix_in name ext_whitelist then ([path], None)
      else ([], Some NotADirectoryError)
  | Dir _ children =>
      for_children
        (fun child =>
           fetch_src_recursive_gen (path ++ [node_name child]) child
             default_ext_whitelist)
        children
  end.

(** The files under the root of the repository that [create_zip] looks at:
    whether [LICENSE] is there, and the tree at [src], if any. *)
Record Project : Type := {
  has_license : bool;
  src : option node
}.

(** [str(path.relative_to(src_path))] for a path below [src]. *)
Definition relative_to_src (path : list string) : string :=
  join "/" (List.tl path).

(** One call [zip_fp.write(filename, arcname)]. *)
Definition entry (path : list string) : list string * string :=
  (path, "/" +:+ ADDON_NAME +:+ "/" +:+ relative_to_src path).

(** [create_zip()]: the calls of [zip_fp.write] made, and the error raised,
    if any. *)
Definition create_zip (project : Project)
  : list (list string * string) * option os_error :=
  if has_license project then
    let licence_entry := (["LICENSE"], "/" +:+ ADDON_NAME +:+ "/LICENSE") in
    match src project with
    | None => ([licence_entry], Some FileNotFoundError)
    | Some n =>
        let '(ys, r) := fetch_src_recursive_gen ["src"] n default_ext_whitelist in
        (licence_entry :: map entry ys, r)
    end
  else ([], Some FileNotFoundError).

(** Every regular file of the tree has a name that [p] accepts. *)
Fixpoint every_file (p : string -> bool) (n : node) : bool :=
  match n with
  | File name _ => p name
  | Dir _ children => forallb (every_file p) children
  end.

(** The paths of the regular files of the tree, directories traversed in
    order. *)
Fixpoint files_of (path : list string) (n : node) : list (list string) :=
  match n with
  | File _ _ => [path]
  | Dir _ children =>
      flat_map (fun child => files_of (path ++ [node_name child]) child) children
  end.

Definition is_python (name : string) : bool := suffix_in name default_ext_whitelist.

End Bundle.

(** * Properties *)

Import PyStr PyNum Addon Wrapper Notions Samples.

(** ** Strings *)

Section StringFacts.

Lemma app_cons (c : ascii) (s t : string) : String c s +:+ t = String c (s +:+ t).
Proof. reflexivity. Qed.

Lemma app_empty_l (s : string) : EmptyString +:+ s = s.
Proof. reflexivity. Qed.

Lemma app_empty_r (s : string) : s +:+ EmptyString = s.
Proof.
  induction s as [|c s IH]; [reflexivity|].
  rewrite app_cons, IH. reflexivity.
Qed.

Lemma app_assoc_str (a b c : string) : (a +:+ b) +:+ c = a +:+ (b +:+ c).
Proof.
  induction a as [|x a IH]; [reflexivity|].
  rewrite !app_cons, IH. reflexivity.
Qed.

Lemma app_snoc (a : string) (c : ascii) (b : string) :
  (a +:+ String c EmptyString) +:+ b = a +:+ String c b.
Proof. rewrite app_assoc_str. reflexivity. Qed.

Lemma flush_nonempty (s : string) : is_empty s = false -> flush s = [s].
Proof. unfold flush. intros ->. reflexivity. Qed.

Lemma nospace_cons (c : ascii) (s : string) :
  nospace (String c s) = true <-> isspace c = false /\ nospace s = true.
Proof.
  simpl. rewrite andb_true_iff, negb_true_iff. reflexivity.
Qed.

(** Reading a run of non-space characters extends the current word. *)
Lemma split_from_word (t : string) :
  forall cur rest,
    nospace t = true ->
    split_from cur (t +:+ rest) = split_from (cur +:+ t) rest.
Proof.
  induction t as [|c t IH]; intros cur rest Ht.
  - rewrite app_empty_l, app_empty_r. reflexivity.
  - apply nospace_cons in Ht as [Hc Ht].
    rewrite app_cons. simpl. rewrite Hc.
    rewrite IH by assumption. rewrite app_snoc. reflexivity.
Qed.

Lemma split_word_then_space (t : string) (c : ascii) (rest : string) :
  nospace t = true -> is_empty t = false -> isspace c = true ->
  split (t +:+ String c rest) = t :: split rest.
Proof.
  intros Ht Hne Hc. unfold split.
  rewrite split_from_word by assumption.
  rewrite app_empty_l. simpl. rewrite Hc.
  rewrite flush_nonempty by assumption. reflexivity.
Qed.

Lemma split_word (t : string) :
  nospace t = true -> is_empty t = false -> split t = [t].
Proof.
  intros Ht Hne. unfold split.
  rewrite <- (app_empty_r t) at 1.
  rewrite split_from_word by assumption.
  rewrite app_empty_l. simpl. apply flush_nonempty. assumption.
Qed.

(** [split] undoes [" ".join] on words. *)
Lemma split_join_words (ts : list string) :
  Forall (fun t => nospace t = true /\ is_empty t = false) ts ->
  split (join " " ts) = ts.
Proof.
  induction 1 as [|t ts [Ht Hne] Hts IH]; [reflexivity|].
  destruct ts as [|t' ts].
  - simpl. apply split_word; assumption.
  - change (join " " (t :: t' :: ts)) with (t +:+ String " " (join " " (t' :: ts))).
    rewrite split_word_then_space by (assumption || reflexivity).
    rewrite IH. reflexivity.
Qed.

End StringFacts.

(** ** The OBJ line converters *)

Section Converters.

Lemma py_int_nonempty (t : string) (n : Z) : py_int t = Ok n -> is_empty t = false.
Proof. destruct t; [discriminate | reflexivity]. Qed.

Lemma py_float_nonempty (t : string) (x : float) :
  py_float t = Ok x -> is_empty t = false.
Proof. destruct t; [discriminate | reflexivity]. Qed.

(** The three tokens of a line made of a two-character tag and three
    words separated by single blanks. *)
Lemma tokens_of_line (tag : string) (t1 t2 t3 : string) :
  String.length tag = 2%nat ->
  Forall (fun t => nospace t = true /\ is_empty t = false) [t1; t2; t3] ->
  split (drop 2 (tag +:+ t1 +:+ " " +:+ t2 +:+ " " +:+ t3)) = [t1; t2; t3].
Proof.
  intros Htag Hts.
  destruct tag as [|a [|b [|c tag]]]; try discriminate.
  change (drop 2 (String a (String b EmptyString) +:+ t1 +:+ " " +:+ t2 +:+ " " +:+ t3))
    with (join " " [t1; t2; t3]).
  apply split_join_words. assumption.
Qed.

(** *** Decimal numerals are tokens that [int] accepts *)

Lemma digit_char_facts (d : Z) :
  0 <= d <= 9 ->
  digit_val (digit_char d) = Some d
  /\ isspace (digit_char d) = false
  /\ num_isspace (digit_char d) = false
  /\ Ascii.eqb (digit_char d) "_" = false
  /\ Ascii.eqb (digit_char d) "+" = false
  /\ Ascii.eqb (digit_char d) "-" = false.
Proof.
  intros H.
  assert (Hd : d = 0 \/ d = 1 \/ d = 2 \/ d = 3 \/ d = 4 \/ d = 5 \/ d = 6
               \/ d = 7 \/ d = 8 \/ d = 9) by lia.
  repeat destruct Hd as [-> | Hd]; try subst d; repeat split; reflexivity.
Qed.

Lemma int_digits_numeral (ds : list Z) :
  forall acc count,
    Forall (fun d => 0 <= d <= 9) ds ->
    int_digits acc count false (numeral ds)
    = Some (fold_left (fun a d => 10 * a + d) ds acc, count + Z.of_nat (length ds)).
Proof.
  induction ds as [|d ds IH]; intros acc count H.
  - simpl. rewrite Z.add_0_r. reflexivity.
  - apply Forall_cons in H as [Hd H].
    destruct (digit_char_facts d Hd) as (Hv & _ & _ & Hu & _).
    cbn [numeral int_digits]. rewrite Hu, Hv, IH by assumption.
    cbn [fold_left length]. do 2 f_equal. lia.
Qed.

Lemma nospace_numeral (ds : list Z) :
  Forall (fun d => 0 <= d <= 9) ds -> nospace (numeral ds) = true.
Proof.
  induction 1 as [|d ds Hd _ IH]; [reflexivity|].
  destruct (digit_char_facts d Hd) as (_ & Hs & _).
  simpl. rewrite Hs, IH. reflexivity.
Qed.

Lemma num_rstrip_numeral (ds : list Z) :
  Forall (fun d => 0 <= d <= 9) ds -> num_rstrip (numeral ds) = numeral ds.
Proof.
  induction 1 as [|d ds Hd _ IH]; [reflexivity|].
  destruct (digit_char_facts d Hd) as (_ & _ & Hs & _).
  simpl. rewrite IH. destruct (numeral ds); [rewrite Hs|]; reflexivity.
Qed.

Lemma py_int_numeral (ds : list Z) :
  digits ds -> py_int (numeral ds) = Ok (numeral_value ds).
Proof.
  intros (Hne & Hds & Hlen). destruct ds as [|d ds]; [contradiction|].
  pose proof Hds as Hall. apply Forall_cons in Hds as [Hd Hds].
  destruct (digit_char_facts d Hd) as (Hv & _ & Hs & _ & Hplus & Hminus).
  unfold py_int, num_strip.
  assert (Hl : num_lstrip (numeral (d :: ds)) = numeral (d :: ds))
    by (simpl; rewrite Hs; reflexivity).
  rewrite Hl, num_rstrip_numeral by assumption.
  assert (Hu : int_unsigned (numeral (d :: ds)) = Ok (numeral_value (d :: ds))).
  { unfold int_unsigned. cbn [numeral]. rewrite Hv.
    rewrite int_digits_numeral by assumption.
    replace (int_max_str_digits <? 1 + Z.of_nat (length ds)) with false.
    - unfold numeral_value. cbn [fold_left]. rewrite Z.mul_0_r. reflexivity.
    - symmetry. apply Z.ltb_ge. simpl length in Hlen. lia. }
  cbn [numeral] in *.
  destruct (digit_char d) as [b0 b1 b2 b3 b4 b5 b6 b7] eqn:Hc.
  destruct b0, b1, b2, b3, b4, b5, b6, b7; try exact Hu; discriminate.
Qed.

End Converters.

(** C1.  For a face line made of the tag, a blank, and three tokens that
    [int] accepts, separated by single blanks, [_obj_face_to_bpy] returns
    the three integers each decremented by one. *)
Theorem obj_face_to_bpy_decrements (t1 t2 t3 : string) (i j k : Z) :
  nospace t1 = true -> nospace t2 = true -> nospace t3 = true ->
  py_int t1 = Ok i -> py_int t2 = Ok j -> py_int t3 = Ok k ->
  _obj_face_to_bpy ("f " +:+ t1 +:+ " " +:+ t2 +:+ " " +:+ t3)
  = Ok [i - 1; j - 1; k - 1].
Proof.
  intros N1 N2 N3 H1 H2 H3. unfold _obj_face_to_bpy.
  rewrite tokens_of_line.
  - simpl. rewrite H1, H2, H3. reflexivity.
  - reflexivity.
  - repeat constructor; eauto using py_int_nonempty.
Qed.

(** The line of the specification: the face of the first three vertices. *)
Lemma obj_face_to_bpy_decrements_witness :
  _obj_face_to_bpy "f 1 2 3" = Ok [0; 1; 2].
Proof.
  exact (obj_face_to_bpy_decrements "1" "2" "3" 1 2 3
           eq_refl eq_refl eq_refl eq_refl eq_refl eq_refl).
Defined.

(** Face lines whose tokens are decimal numerals. *)
Lemma obj_face_to_bpy_numerals (a b c : list Z) :
  digits a -> digits b -> digits c ->
  _obj_face_to_bpy ("f " +:+ numeral a +:+ " " +:+ numeral b +:+ " " +:+ numeral c)
  = Ok [numeral_value a - 1; numeral_value b - 1; numeral_value c - 1].
Proof.
  intros Ha Hb Hc. unfold _obj_face_to_bpy.
  pose proof (py_int_numeral a Ha) as Hia.
  pose proof (py_int_numeral b Hb) as Hib.
  pose proof (py_int_numeral c Hc) as Hic.
  destruct Ha as (_ & Ha & _), Hb as (_ & Hb & _), Hc as (_ & Hc & _).
  rewrite tokens_of_line.
  - simpl. rewrite Hia, Hib, Hic. reflexivity.
  - reflexivity.
  - repeat constructor; eauto using py_int_nonempty, nospace_numeral.
Qed.

Example obj_face_to_bpy_slashes : _obj_face_to_bpy "f 1/1 2/2 3/3" = Raise ValueError.
Proof. reflexivity. Qed.

Example obj_face_to_bpy_four : _obj_face_to_bpy "f 1 2 3 4" = Ok [0; 1; 2; 3].
Proof. reflexivity. Qed.

(** C2.  For a vertex line made of the tag, a blank, and three tokens that
    [float] accepts, separated by single blanks, [_obj_vertex_to_bpy]
    returns the three floating-point numbers those tokens convert to. *)
Theorem obj_vertex_to_bpy_converts (t1 t2 t3 : string) (x y z : float) :
  nospace t1 = true -> nospace t2 = true -> nospace t3 = true ->
  py_float t1 = Ok x -> py_float t2 = Ok y -> py_float t3 = Ok z ->
  _obj_vertex_to_bpy ("v " +:+ t1 +:+ " " +:+ t2 +:+ " " +:+ t3) = Ok [x; y; z].
Proof.
  intros N1 N2 N3 H1 H2 H3. unfold _obj_vertex_to_bpy.
  rewrite tokens_of_line.
  - simpl. rewrite H1, H2, H3. reflexivity.
  - reflexivity.
  - repeat constructor; eauto using py_float_nonempty.
Qed.

(** The line of the specification: the vertex at (1.0, 2.0, 3.0). *)
Lemma obj_vertex_to_bpy_converts_witness :
  _obj_vertex_to_bpy "v 1 2 3" = Ok [1.0; 2.0; 3.0]%float.
Proof.
  exact (obj_vertex_to_bpy_converts "1" "2" "3" 1.0 2.0 3.0
           eq_refl eq_refl eq_refl eq_refl eq_refl eq_refl).
Defined.

Example obj_vertex_to_bpy_decimals :
  _obj_vertex_to_bpy "v 0.5 -1.25 1e2" = Ok [0.5; -1.25; 100.0]%float.
Proof. reflexivity. Qed.

Example obj_vertex_to_bpy_malformed : _obj_vertex_to_bpy "v 1 2 x" = Raise ValueError.
Proof. reflexivity. Qed.

(** ** [GenerateMesh.execute] *)

Section ExecuteFacts.

Variable from_pydata_raises : list vertex -> list face -> list face -> option exn.

Local Abbreviation rebuild := (rebuild from_pydata_raises).
Local Abbreviation scan_line := (scan_line from_pydata_raises).
Local Abbreviation scan := (scan from_pydata_raises).

Lemma snoc_neq {A} (l : list A) (x : A) : l ++ [x] <> l.
Proof.
  intros H. apply (f_equal (@List.length A)) in H.
  rewrite length_app in H. simpl in H. lia.
Qed.

Lemma rebuild_lists (st st' : ExecState) (r : option exn) :
  rebuild st = (st', r) ->
  verts st' = verts st /\ faces st' = faces st /\ edges st' = edges st
  /\ mesh_name st' = mesh_name st /\ object_name st' = object_name st.
Proof.
  unfold Addon.rebuild. destruct from_pydata_raises; intros [= <- <-]; simpl; auto.
Qed.

(** A line with neither tag is skipped by [continue]. *)
Lemma scan_line_other (st : ExecState) (line : string) :
  startswith "v " line = false -> startswith "f " line = false ->
  scan_line st line = (st, None).
Proof. intros Hv Hf. unfold Addon.scan_line. rewrite Hv, Hf. reflexivity. Qed.

(** What one turn of the loop does to the two lists. *)
Lemma scan_line_lists (st st' : ExecState) (line : string) (r : option exn) :
  scan_line st line = (st', r) ->
  (verts st' = verts st /\ faces st' = faces st)
  \/ (startswith "v " line = true /\ faces st' = faces st
      /\ exists v, _obj_vertex_to_bpy line = Ok v /\ verts st' = verts st ++ [v])
  \/ (startswith "v " line = false /\ startswith "f " line = true
      /\ verts st' = verts st
      /\ exists f, _obj_face_to_bpy line = Ok f /\ faces st' = faces st ++ [f]).
Proof.
  unfold Addon.scan_line.
  destruct (startswith "v " line) eqn:Hv.
  - destruct (_obj_vertex_to_bpy line) as [v|e] eqn:Hconv.
    + intros H. apply rebuild_lists in H as (Hvs & Hfs & _). simpl in Hvs, Hfs.
      right; left. eauto.
    + intros [= <- <-]. left. auto.
  - destruct (startswith "f " line) eqn:Hf.
    + destruct (_obj_face_to_bpy line) as [f|e] eqn:Hconv.
      * intros H. apply rebuild_lists in H as (Hvs & Hfs & _). simpl in Hvs, Hfs.
        right; right. eauto 10.
      * intros [= <- <-]. left. auto.
    + intros [= <- <-]. left. auto.
Qed.

Lemma scan_other_lines (st : ExecState) (lines : list string) :
  Forall (fun l => startswith "v " l = false /\ startswith "f " l = false) lines ->
  scan st lines = (st, None).
Proof.
  induction 1 as [|l ls [Hv Hf] _ IH]; [reflexivity|].
  simpl. rewrite scan_line_other by assumption. exact IH.
Qed.

(** *** The name plays no part in the scan *)

Lemma rebuild_rename (name : string) (st : ExecState) :
  rebuild (rename name st)
  = (rename name (fst (rebuild st)), snd (rebuild st)).
Proof.
  unfold Addon.rebuild. simpl. destruct from_pydata_raises; reflexivity.
Qed.

Lemma scan_line_rename (name : string) (st : ExecState) (line : string) :
  scan_line (rename name st) line
  = (rename name (fst (scan_line st line)), snd (scan_line st line)).
Proof.
  unfold Addon.scan_line.
  destruct (startswith "v " line).
  - destruct (_obj_vertex_to_bpy line); [|reflexivity].
    apply (rebuild_rename name (with_lists st _ _)).
  - destruct (startswith "f " line); [|reflexivity].
    destruct (_obj_face_to_bpy line); [|reflexivity].
    apply (rebuild_rename name (with_lists st _ _)).
Qed.

Lemma scan_rename (name : string) (lines : list string) :
  forall st,
    scan (rename name st) lines
    = (rename name (fst (scan st lines)), snd (scan st lines)).
Proof.
  induction lines as [|l ls IH]; intros st; [reflexivity|].
  simpl. rewrite scan_line_rename.
  destruct (scan_line st l) as [st' [e|]]; simpl; [reflexivity|].
  apply IH.
Qed.

(** *** [strip] before [split] changes nothing *)

Lemma split_from_lstrip (s : string) :
  split_from EmptyString (lstrip s) = split_from EmptyString s.
Proof.
  induction s as [|c s IH]; [reflexivity|].
  simpl. destruct (isspace c) eqn:Hc; [exact IH|].
  simpl. rewrite Hc. reflexivity.
Qed.

Lemma split_from_rstrip (s : string) :
  forall cur, split_from cur (rstrip s) = split_from cur s.
Proof.
  induction s as [|c s IH]; intros cur; [reflexivity|].
  simpl. destruct (rstrip s) as [|c' r] eqn:Hr.
  - destruct (isspace c) eqn:Hc.
    + rewrite <- IH. simpl. rewrite app_nil_r. reflexivity.
    + simpl. rewrite Hc. rewrite <- IH. reflexivity.
  - simpl. destruct (isspace c); rewrite <- IH; reflexivity.
Qed.

Lemma split_strip (s : string) : split (strip s) = split s.
Proof.
  unfold split, strip. rewrite split_from_rstrip. apply split_from_lstrip.
Qed.

End ExecuteFacts.

(** C4.  In the loop over the lines after the first, a line that starts
    with neither tag leaves the whole state as it was: the two lists, the
    geometry of the mesh and the redraw count.  The vertex list changes only
    on a line starting with the vertex tag, by one vertex appended, and the
    face list only on a line starting with the face tag, by one face
    appended. *)
Theorem scan_line_frame
    (from_pydata_raises : list vertex -> list face -> list face -> option exn)
    (st : ExecState) (line : string) :
  (startswith "v " line = false -> startswith "f " line = false ->
   scan_line from_pydata_raises st line = (st, None))
  /\ (forall st' r,
        scan_line from_pydata_raises st line = (st', r) ->
        (verts st' <> verts st ->
         startswith "v " line = true /\ faces st' = faces st
         /\ exists v, _obj_vertex_to_bpy line = Ok v /\ verts st' = verts st ++ [v])
        /\ (faces st' <> faces st ->
            startswith "f " line = true /\ verts st' = verts st
            /\ exists f, _obj_face_to_bpy line = Ok f /\ faces st' = faces st ++ [f]))
  /\ (forall lines,
        Forall (fun l => startswith "v " l = false /\ startswith "f " l = false) lines ->
        scan from_pydata_raises st lines = (st, None)).
Proof.
  split; [apply scan_line_other|]. split; [|apply scan_other_lines].
  intros st' r H.
  destruct (scan_line_lists _ _ _ _ _ H)
    as [[Hv Hf] | [(Hv & Hf & v & Hc & Hvs) | (Hnv & Hf & Hvs & f & Hc & Hfs)]].
  - split; intros Hne; contradiction.
  - split; intros Hne; [eauto | contradiction].
  - split; intros Hne; [contradiction | eauto 10].
Qed.

(** A fence line of the generated code block is skipped, whatever the lists
    hold. *)
Lemma scan_line_frame_witness :
  let st := with_lists (new_state "simple_table_model") [[0; 12; 15]%float] [] in
  scan_line (fun _ _ _ => None) st "```obj" = (st, None).
Proof.
  intros st.
  exact (proj1 (scan_line_frame (fun _ _ _ => None) st "```obj") eq_refl eq_refl).
Defined.

(** C8.  The first line only names the model: the mesh and the object get
    the words of that line, lowercased and joined with underscores; the
    lists, the geometry and the way the scan ends are those of the scan of
    the remaining lines from empty lists, the same for any first line. *)
Theorem execute_first_line_is_name
    (from_pydata_raises : list vertex -> list face -> list face -> option exn)
    (first : string) (rest : list string) (ending : option exn) :
  let name := join "_" (map lower (split first)) in
  exists st r,
    execute from_pydata_raises (first :: rest) ending = (Some st, r)
    /\ mesh_name st = name /\ object_name st = name
    /\ st = rename name (fst (scan from_pydata_raises (new_state EmptyString) rest)).
Proof.
  intros name. unfold execute. rewrite split_strip. fold name.
  change (new_state name) with (rename name (new_state EmptyString)).
  rewrite scan_rename.
  destruct (scan from_pydata_raises (new_state EmptyString) rest) as [st e];
    simpl in *.
  exists (rename name st).
  exists (match e with
          | Some x => Raise x
          | None => match ending with Some x => Raise x | None => Ok tt end
          end).
  split; [destruct e as [x|]; [|destruct ending]; reflexivity|].
  split; [reflexivity|]. split; reflexivity.
Qed.

(** The opening of the test data of the repository. *)
Example execute_table_model :
  execute (fun _ _ _ => None)
    ["Simple Table Model"; EmptyString; "```obj"; "v 0 12 15"; "v 0 12 18"; "v 0 48 15";
     "f 1 2 3"; "```"] None
  = (Some {| mesh_name := "simple_table_model";
             object_name := "simple_table_model";
             verts := [[0; 12; 15]; [0; 12; 18]; [0; 48; 15]]%float;
             edges := [];
             faces := [[0; 1; 2]];
             geometry := Some ([[0; 12; 15]; [0; 12; 18]; [0; 48; 15]]%float,
                               [], [[0; 1; 2]]);
             redraws := 4 |},
     Ok tt).
Proof. reflexivity. Qed.

(** A first line that looks like a vertex line is still only the name. *)
Example execute_first_line_vertex :
  execute (fun _ _ _ => None) ["v 1 2 3"] None = (Some (new_state "v_1_2_3"), Ok tt).
Proof. reflexivity. Qed.

Example execute_empty_stream :
  execute (fun _ _ _ => None) [] None = (None, Raise StopIteration).
Proof. reflexivity. Qed.

(** ** [_progressive_download] *)

Section DownloadFacts.

Variable env : Env.

Lemma console_fold_print (out : list print_event) :
  forall w,
    console (fold_left print out w) = console w ++ out
    /\ requests (fold_left print out w) = requests w
    /\ ver_info (fold_left print out w) = ver_info w
    /\ bin_dir (fold_left print out w) = bin_dir w
    /\ gguf_dir (fold_left print out w) = gguf_dir w.
Proof.
  induction out as [|ev out IH]; intros w; simpl.
  - rewrite app_nil_r. auto.
  - destruct (IH (print w ev)) as (-> & -> & -> & -> & ->). simpl.
    rewrite <- app_assoc. auto.
Qed.

(** A download touches the files of the world in no way: it adds one
    request and prints. *)
Lemma progressive_download_world (w w' : World) (url : string)
    (save saved : bytes) (r : option exn) :
  _progressive_download env w url save = (w', saved, r) ->
  requests w' = requests w ++ [url]
  /\ ver_info w' = ver_info w /\ bin_dir w' = bin_dir w /\ gguf_dir w' = gguf_dir w.
Proof.
  unfold _progressive_download.
  destruct (urlopen env (requests w) url) as [resp|e]; [|intros [= <- <- <-]; auto].
  destruct (py_int_opt _) as [size|e]; [|intros [= <- <- <-]; auto].
  destruct (download_loop _ _ _ _ _ _) as [[saved' out] [e|]].
  - intros [= <- <- <-].
    destruct (console_fold_print out (add_request w url)) as (_ & -> & -> & -> & ->).
    auto.
  - intros [= <- <- <-]. simpl.
    destruct (console_fold_print out (add_request w url)) as (_ & -> & -> & -> & ->).
    auto.
Qed.

(** With a size of zero the loop prints no percentage and, when no read
    fails, stores the whole body. *)
Lemma download_loop_size_zero (msg : string) (reads : list read_result) :
  forall turn save out,
    body_complete reads = true ->
    exists out',
      download_loop msg 0 turn reads save out
      = (save +:+ body_bytes reads, out ++ out', None)
      /\ forallb without_percentage out' = true.
Proof.
  induction reads as [|[chunk|e] reads IH]; intros turn save out Hc; simpl in *.
  - exists []. rewrite app_empty_r, app_nil_r. auto.
  - destruct (is_empty chunk) eqn:Hchunk; simpl in Hc.
    + exists []. rewrite app_empty_r, app_nil_r. auto.
    + destruct (IH (S turn) (save +:+ chunk)
                  (out ++ [PrintProgress msg (get_progress_text 0 save) (cycler turn)]) Hc)
        as (out' & -> & Hout').
      exists (PrintProgress msg (get_progress_text 0 save) (cycler turn) :: out').
      rewrite app_assoc_str, <- app_assoc. simpl. auto.
  - discriminate.
Qed.

End DownloadFacts.

(** C7.  When the response carries no Content-Length field, the call
    raises [TypeError] from the conversion of the missing value: nothing is
    written to the file, and the one request made is not repeated.  When
    the field is present and its value converts to zero, no progress line
    carries a percentage, and if no read fails the call returns with the
    whole body written to the file. *)
Theorem progressive_download_content_length
    (env : Env) (w : World) (url : string) (save_file : bytes) (resp : Response) :
  urlopen env (requests w) url = Ok resp ->
  (get_header (headers resp) "Content-Length" = None ->
   _progressive_download env w url save_file
   = (add_request w url, save_file, Some TypeError))
  /\ (forall value,
        get_header (headers resp) "Content-Length" = Some value ->
        py_int value = Ok 0 ->
        body_complete (body resp) = true ->
        exists w',
          _progressive_download env w url save_file
          = (w', save_file +:+ body_bytes (body resp), None)
          /\ requests w' = requests w ++ [url]
          /\ exists out,
               console w' = console w ++ out
               /\ forallb without_percentage out = true).
Proof.
  intros Hopen. split.
  - intros Hmissing. unfold _progressive_download.
    rewrite Hopen, Hmissing. reflexivity.
  - intros value Hvalue Hzero Hbody. unfold _progressive_download.
    rewrite Hopen, Hvalue. simpl. rewrite Hzero.
    destruct (download_loop_size_zero ("Downloading " +:+ path_name url)
                (body resp) 0%nat save_file [] Hbody) as (out & -> & Hout).
    eexists. split; [reflexivity|]. simpl.
    destruct (console_fold_print out (add_request w url)) as (Hcon & Hreq & _).
    rewrite Hreq, Hcon. simpl. split; [reflexivity|].
    exists (out ++ [PrintLine EmptyString]). rewrite <- app_assoc. split; [reflexivity|].
    rewrite forallb_app, Hout. reflexivity.
Qed.

(** On a response without the field the call raises; on one whose field
    says zero the five bytes are stored. *)
Lemma progressive_download_content_length_witness :
  _progressive_download (linux_env (Ok unsized_response) []) empty_world
    linux_binary_url EmptyString
  = (add_request empty_world linux_binary_url, EmptyString, Some TypeError)
  /\ exists w',
      _progressive_download (linux_env (Ok zero_sized_response) []) empty_world
        linux_binary_url EmptyString
      = (w', "PKzip", None).
Proof.
  split.
  - exact (proj1 (progressive_download_content_length
                    (linux_env (Ok unsized_response) []) empty_world
                    linux_binary_url EmptyString unsized_response eq_refl)
                 eq_refl).
  - destruct (proj2 (progressive_download_content_length
                       (linux_env (Ok zero_sized_response) []) empty_world
                       linux_binary_url EmptyString zero_sized_response eq_refl)
                    "0" eq_refl eq_refl eq_refl) as (w' & Hrun & _).
    exists w'. exact Hrun.
Defined.

(** ** The version marker *)

Section MarkerFacts.

Lemma not_linebreak_not_newline (c : ascii) :
  islinebreak c = false -> Ascii.eqb c "013" = false /\ Ascii.eqb c "010" = false.
Proof.
  intros H. split.
  - destruct (Ascii.eqb_spec c "013") as [->|]; [discriminate H | reflexivity].
  - destruct (Ascii.eqb_spec c "010") as [->|]; [discriminate H | reflexivity].
Qed.

Lemma not_space_not_newline (c : ascii) :
  isspace c = false -> Ascii.eqb c "013" = false /\ Ascii.eqb c "010" = false.
Proof.
  intros H. split.
  - destruct (Ascii.eqb_spec c "013") as [->|]; [discriminate H | reflexivity].
  - destruct (Ascii.eqb_spec c "010") as [->|]; [discriminate H | reflexivity].
Qed.

(** *** Reading with universal newlines *)

Lemma translate_read_flag (b : bool) (x : string) :
  starts_nonspace x = true -> translate_read b x = translate_read false x.
Proof.
  destruct x as [|c x]; [discriminate|]. simpl. intros Hc.
  apply negb_true_iff, not_space_not_newline in Hc as [-> ->]. reflexivity.
Qed.

Lemma translate_read_app (pre x : string) :
  forall b,
    starts_nonspace x = true ->
    translate_read b (pre +:+ x) = translate_read b pre +:+ translate_read false x.
Proof.
  induction pre as [|c pre IH]; intros b Hx.
  - rewrite app_empty_l. simpl. apply translate_read_flag. assumption.
  - rewrite app_cons. simpl.
    destruct (Ascii.eqb c "013"); [rewrite IH by assumption; reflexivity|].
    destruct (Ascii.eqb c "010"); [destruct b|]; rewrite IH by assumption; reflexivity.
Qed.

Lemma translate_read_line (core post : string) :
  nolinebreak core = true ->
  translate_read false (core +:+ post) = core +:+ translate_read false post.
Proof.
  induction core as [|c core IH]; intros H; [reflexivity|].
  simpl in H. apply andb_true_iff in H as [Hc H].
  apply negb_true_iff, not_linebreak_not_newline in Hc as [Hcr Hlf].
  rewrite !app_cons. simpl. rewrite Hcr, Hlf, IH by assumption. reflexivity.
Qed.

Lemma translate_read_allspace (s : string) :
  forall b, allspace s = true -> allspace (translate_read b s) = true.
Proof.
  induction s as [|c s IH]; intros b H; [reflexivity|].
  simpl in H. apply andb_true_iff in H as [Hc H]. simpl.
  destruct (Ascii.eqb c "013"); [simpl; apply IH; assumption|].
  destruct (Ascii.eqb c "010"); [destruct b; simpl; apply IH; assumption|].
  simpl. rewrite Hc. apply IH. assumption.
Qed.

(** *** [strip] *)

Lemma lstrip_allspace_app (pre x : string) :
  allspace pre = true -> lstrip (pre +:+ x) = lstrip x.
Proof.
  induction pre as [|c pre IH]; intros H; [reflexivity|].
  simpl in H. apply andb_true_iff in H as [Hc H].
  rewrite app_cons. simpl. rewrite Hc. apply IH. assumption.
Qed.

Lemma lstrip_starts_nonspace (x : string) :
  starts_nonspace x = true -> lstrip x = x.
Proof.
  destruct x as [|c x]; [discriminate|]. simpl.
  intros Hc. apply negb_true_iff in Hc. rewrite Hc. reflexivity.
Qed.

Lemma rstrip_allspace (s : string) : allspace s = true -> rstrip s = EmptyString.
Proof.
  induction s as [|c s IH]; intros H; [reflexivity|].
  simpl in H. apply andb_true_iff in H as [Hc H].
  simpl. rewrite IH by assumption. rewrite Hc. reflexivity.
Qed.

Lemma rstrip_ends_nonspace (core post : string) :
  ends_nonspace core = true -> allspace post = true ->
  rstrip (core +:+ post) = core.
Proof.
  intros Hcore Hpost. induction core as [|c core IH]; [discriminate|].
  rewrite app_cons. simpl. destruct core as [|c' core].
  - rewrite app_empty_l, rstrip_allspace by assumption.
    simpl in Hcore. apply negb_true_iff in Hcore. rewrite Hcore. reflexivity.
  - rewrite IH by exact Hcore. reflexivity.
Qed.

Lemma strip_padded (pre core post : string) :
  allspace pre = true -> allspace post = true ->
  starts_nonspace core = true -> ends_nonspace core = true ->
  strip (pre +:+ core +:+ post) = core.
Proof.
  intros Hpre Hpost Hs He. unfold strip.
  rewrite lstrip_allspace_app by assumption.
  rewrite lstrip_starts_nonspace by (destruct core; [discriminate | exact Hs]).
  apply rstrip_ends_nonspace; assumption.
Qed.

Lemma strip_allspace (s : string) : allspace s = true -> strip s = EmptyString.
Proof.
  intros H. unfold strip.
  rewrite <- (app_empty_r s), lstrip_allspace_app by assumption. reflexivity.
Qed.

(** *** [splitlines] *)

Lemma splitlines_from_line (s : string) :
  forall cur,
    nolinebreak s = true -> splitlines_from cur s = flush (cur +:+ s).
Proof.
  induction s as [|c s IH]; intros cur H.
  - rewrite app_empty_r. reflexivity.
  - simpl in H. apply andb_true_iff in H as [Hc H].
    apply negb_true_iff in Hc. simpl. rewrite Hc.
    rewrite IH by assumption. rewrite app_snoc. reflexivity.
Qed.

(** A marker holding one line of text among blank ones is read as that
    one line. *)
Lemma marker_single_line (pre core post : string) :
  allspace pre = true -> allspace post = true -> nolinebreak core = true ->
  starts_nonspace core = true -> ends_nonspace core = true ->
  splitlines (strip (read_text (pre +:+ core +:+ post))) = [core].
Proof.
  intros Hpre Hpost Hline Hs He. unfold read_text, universal_newlines.
  rewrite translate_read_app by (destruct core; [discriminate | exact Hs]).
  rewrite translate_read_line by assumption.
  rewrite strip_padded by auto using translate_read_allspace.
  unfold splitlines. rewrite splitlines_from_line by assumption.
  destruct core; [discriminate | reflexivity].
Qed.

Lemma marker_blank (content : string) :
  allspace content = true ->
  splitlines (strip (read_text content)) = [].
Proof.
  intros H. unfold read_text, universal_newlines.
  rewrite strip_allspace by auto using translate_read_allspace. reflexivity.
Qed.

End MarkerFacts.

(** ** [_ensure_binary] *)

Section EnsureBinaryFacts.

Variable env : Env.
Variable url : string.

Local Abbreviation current_marker := (current_marker env).

Lemma ensure_binary_raise (w : World) (e : exn) :
  old_binary (splitlines (strip (read_text (ver_info w)))) = Raise e ->
  _ensure_binary env url w = (checking w, Raise e).
Proof. intros H. unfold _ensure_binary. simpl. rewrite H. reflexivity. Qed.

Lemma ensure_binary_skip (w : World) (os build : string) :
  old_binary (splitlines (strip (read_text (ver_info w)))) = Ok (os, build) ->
  String.eqb os (platform_system env) && String.eqb build _LLAMA_CPP_BUILD = true ->
  _ensure_binary env url w = (checking w, Ok tt).
Proof. intros H Hc. unfold _ensure_binary. simpl. rewrite H, Hc. reflexivity. Qed.

(** When the comparison fails, one request is made for the binary; if the
    call returns, the marker holds the current pair. *)
Lemma ensure_binary_download (w : World) (os build : string) :
  old_binary (splitlines (strip (read_text (ver_info w)))) = Ok (os, build) ->
  String.eqb os (platform_system env) && String.eqb build _LLAMA_CPP_BUILD = false ->
  requests (fst (_ensure_binary env url w)) = requests w ++ [url]
  /\ (snd (_ensure_binary env url w) = Ok tt ->
      ver_info (fst (_ensure_binary env url w)) = write_text env current_marker).
Proof.
  intros H Hc. unfold _ensure_binary. simpl. rewrite H, Hc.
  destruct (_progressive_download _ _ _ _) as [[w1 zip_data] r] eqn:Hd.
  apply progressive_download_world in Hd as (Hreq & _). simpl in Hreq.
  destruct r as [e|]; [split; [exact Hreq | discriminate]|].
  destruct (zip_members env zip_data) as [members|e];
    [|split; [exact Hreq | discriminate]].
  destruct (extract members (bin_dir w1)) as [dir [e|]]; simpl.
  - split; [exact Hreq | discriminate].
  - split; [exact Hreq | reflexivity].
Qed.


Lemma supported_system :
  _BINARY_URL env = Ok url ->
  platform_system env = "Linux" \/ platform_system env = "Windows"
  \/ platform_system env = "Darwin".
Proof.
  unfold _BINARY_URL, _BINARY_ZIP_NAME, getitem, _SYSTEM_TO_FILE_NAME. simpl.
  intros H.
  destruct (decide (platform_system env = "Linux")) as [|N1]; [auto|].
  destruct (decide (platform_system env = "Windows")) as [|N2]; [auto|].
  destruct (decide (platform_system env = "Darwin")) as [|N3]; [auto|].
  rewrite !lookup_insert_ne, lookup_empty in H by congruence. discriminate H.
Qed.

(** The marker the module writes is read back as the current pair. *)
Lemma marker_roundtrip :
  _BINARY_URL env = Ok url ->
  splitlines (strip (read_text (write_text env current_marker)))
  = [platform_system env; _LLAMA_CPP_BUILD].
Proof.
  intros H. unfold write_text, linesep, current_marker.
  destruct (supported_system H) as [-> | [-> | ->]]; reflexivity.
Qed.

End EnsureBinaryFacts.

(** C9.  If the marker holds one line of text and otherwise only blank
    space, the call raises [IndexError] right after the check message:
    nothing is downloaded and no file changes.  A marker with nothing but
    blank space passes the guard and the download is requested. *)
Theorem ensure_binary_single_line_marker (env : Env) (url : string) (w : World) :
  (forall pre core post,
      ver_info w = pre +:+ core +:+ post ->
      allspace pre = true -> allspace post = true -> nolinebreak core = true ->
      starts_nonspace core = true -> ends_nonspace core = true ->
      _ensure_binary env url w = (checking w, Raise IndexError))
  /\ (allspace (ver_info w) = true ->
      requests (fst (_ensure_binary env url w)) = requests w ++ [url]).
Proof.
  split.
  - intros pre core post Hfile Hpre Hpost Hline Hs He.
    apply ensure_binary_raise.
    rewrite Hfile, marker_single_line by assumption. reflexivity.
  - intros Hblank.
    apply (ensure_binary_download env url w EmptyString EmptyString).
    + rewrite marker_blank by assumption. reflexivity.
    + apply andb_false_intro2. reflexivity.
Qed.

(** A marker cut short after the platform name. *)
Lemma ensure_binary_single_line_marker_witness :
  let w := world_with_marker ("Linux" +:+ String "010" EmptyString) in
  _ensure_binary (linux_env (Ok sized_response) []) linux_binary_url w
  = (checking w, Raise IndexError).
Proof.
  intros w.
  exact (proj1 (ensure_binary_single_line_marker
                  (linux_env (Ok sized_response) []) linux_binary_url w)
               EmptyString "Linux" (String "010" EmptyString)
               eq_refl eq_refl eq_refl eq_refl eq_refl eq_refl).
Defined.



(** ** [_ensure_gguf] *)

Section EnsureGgufFacts.

Variable env : Env.
Variable model_url : string.

Local Abbreviation model_name := (path_name model_url).

Lemma ensure_gguf_cached (w : World) :
  path_exists (gguf_dir w) model_name = true ->
  _ensure_gguf env model_url w
  = (print w (PrintLine "Checking for gguf file"), Ok tt).
Proof. intros H. unfold _ensure_gguf. simpl. rewrite H. reflexivity. Qed.

Lemma path_exists_false (files : gmap string bytes) (name : string) :
  path_exists files name = false ->
  is_directory_name name = false /\ files !! name = None.
Proof.
  unfold path_exists. intros H. apply orb_false_iff in H as [Hd Hf].
  split; [exact Hd|]. apply bool_decide_eq_false in Hf.
  destruct (files !! name) eqn:E; [|reflexivity].
  exfalso. apply Hf. eauto.
Qed.

(** When the download file is another file than the model file, a failed
    download leaves no model file, and a completed one leaves the model
    file alone. *)
Lemma ensure_gguf_distinct_names (w w' : World) (dl_name : string) (r : result unit) :
  path_exists (gguf_dir w) model_name = false ->
  with_suffix model_name ".temp" = Ok dl_name ->
  dl_name <> model_name ->
  _ensure_gguf env model_url w = (w', r) ->
  match r with
  | Raise _ => gguf_dir w' !! model_name = None
  | Ok _ => is_Some (gguf_dir w' !! model_name) /\ gguf_dir w' !! dl_name = None
  end.
Proof.
  intros Hnew Hdl Hne. unfold _ensure_gguf. simpl. rewrite Hnew, Hdl.
  apply path_exists_false in Hnew as [_ Hnone].
  destruct (_progressive_download _ _ _ _) as [[w1 written] res] eqn:Hd.
  apply progressive_download_world in Hd as (_ & _ & _ & Hg). simpl in Hg.
  destruct res as [e|]; intros [= <- <-]; simpl.
  - rewrite Hg, lookup_insert_ne, lookup_insert_ne by assumption. exact Hnone.
  - split.
    + rewrite lookup_insert_eq. eauto.
    + rewrite lookup_insert_ne by congruence. apply lookup_delete_eq.
Qed.

End EnsureGgufFacts.

(** C10.  The model named with the suffix of the download file: the
    download file is the model file itself.  The connection breaks after
    the first chunk, the call raises, and the model path now exists with
    the bytes received; the call repeated finds it and returns without a
    request. *)
Theorem ensure_gguf_temp_name_collision :
  let env := linux_env (Ok broken_response) [] in
  let model_url := "https://example.org/models/LLaMA-Mesh.temp" in
  let run := _ensure_gguf env model_url empty_world in
  path_exists (gguf_dir empty_world) (path_name model_url) = false
  /\ with_suffix (path_name model_url) ".temp" = Ok (path_name model_url)
  /\ snd run = Raise OSError
  /\ gguf_dir (fst run) !! path_name model_url = Some "GGUF"
  /\ snd (_ensure_gguf env model_url (fst run)) = Ok tt
  /\ requests (fst (_ensure_gguf env model_url (fst run))) = requests (fst run).
Proof. vm_compute. repeat split. Qed.

(** ** [generate_oneshot] *)

Section GeneratorFacts.

Variable env : Env.

(** Leaving the [try] block goes through [kill]. *)
Lemma try_finally_kills (r : Process * list string * step) :
  match try_finally r with
  | (AtYield _, _, Yields _) => True
  | (Finished (Some p), _, Returns) => killed p = true
  | (Finished (Some p), _, Raises _) => killed p = true
  | _ => False
  end.
Proof. destruct r as [[p out] [line| |e]]; simpl; auto. Qed.

Lemma resume_frame (g : Generator) (thrown : option exn) (p : Process) :
  match at_ (fst (resume env g thrown p)) with
  | AtYield _ => thrown = None
  | Finished (Some p') => killed p' = true
  | _ => False
  end.
Proof.
  unfold resume, try_block.
  destruct thrown as [e|]; simpl; [reflexivity|].
  destruct (stdout p) as [|line rest]; simpl; [reflexivity|].
  destruct (is_empty line); simpl; [reflexivity|].
  destruct (decode_utf8 env line); simpl; reflexivity.
Qed.

Lemma resume_cmdline (g : Generator) (thrown : option exn) (p : Process) :
  match at_ (fst (resume env g thrown p)) with
  | AtYield p' | Finished (Some p') => cmdline p' = cmdline p
  | _ => False
  end.
Proof.
  unfold resume, try_block.
  destruct thrown as [e|]; simpl; [reflexivity|].
  destruct (stdout p) as [|line rest]; simpl; [reflexivity|].
  destruct (is_empty line); simpl; [reflexivity|].
  destruct (decode_utf8 env line); simpl; reflexivity.
Qed.

Lemma resume_call (g : Generator) (thrown : option exn) (p : Process) :
  self (fst (resume env g thrown p)) = self g
  /\ prompt (fst (resume env g thrown p)) = prompt g
  /\ args (fst (resume env g thrown p)) = args g.
Proof.
  unfold resume. destruct (try_finally _) as [[f out] s]. simpl. auto.
Qed.

Lemma resume_settled (g : Generator) (thrown : option exn) (p : Process) :
  cmdline p = command_line (self g) (prompt g) (args g) ->
  settled (fst (resume env g thrown p)).
Proof.
  intros Hcmd. unfold settled.
  pose proof (resume_frame g thrown p) as Hf.
  pose proof (resume_cmdline g thrown p) as Hc.
  destruct (resume_call g thrown p) as (-> & -> & ->).
  destruct (at_ (fst (resume env g thrown p))) as [|p'|[p'|]];
    try contradiction; try split; congruence.
Qed.

Lemma apply_operation_settled (g : Generator) (op : operation) :
  settled g -> settled (apply_operation env g op).
Proof.
  intros Hg. unfold settled in Hg.
  destruct op as [|e|]; simpl; unfold gen_close, gen_throw, gen_next;
    destruct (at_ g) as [|p|[p|]] eqn:Hat;
    try (apply resume_settled; assumption);
    try (unfold settled; simpl; rewrite ?Hat; simpl; tauto).
  destruct (popen env _) as [lines|e];
    [apply resume_settled; reflexivity | exact I].
Qed.

Lemma run_settled (ops : list operation) :
  forall g, settled g -> settled (fold_left (apply_operation env) ops g).
Proof.
  induction ops as [|op ops IH]; intros g Hg; [exact Hg|].
  simpl. apply IH, apply_operation_settled, Hg.
Qed.

End GeneratorFacts.



(** C6.  The command line handed to [Popen] is the quoted binary path,
    the fixed flags, the extra arguments joined by blanks, the model flag
    with the quoted model path and the prompt flag with the quoted prompt,
    in this order.  The first [next] starts the subprocess with it, and it
    is the command line of the subprocess of the generator ever after. *)
Theorem generate_oneshot_command_line
    (env : Env) (this : LlamaCppWrapper) (prompt : string) (args : list string) :
  let cmd :=
    quoted (binary_path this) +:+ " -ngl 999 -fa " +:+ join " " args
      +:+ " -m " +:+ quoted (model_path this) +:+ " -p " +:+ quoted prompt in
  command_line this prompt args = cmd
  /\ match at_ (fst (gen_next env (generate_oneshot this prompt args))) with
     | NotStarted => False
     | AtYield p | Finished (Some p) => cmdline p = cmd
     | Finished None => exists e, popen env cmd = Raise e
     end
  /\ (forall ops,
        match at_ (fold_left (apply_operation env) ops
                     (generate_oneshot this prompt args)) with
        | AtYield p | Finished (Some p) => cmdline p = cmd
        | _ => True
        end).
Proof.
  intros cmd.
  assert (Hcmd : command_line this prompt args = cmd).
  { unfold command_line, cmd, quoted. rewrite !app_cons, !app_assoc_str. reflexivity. }
  split; [exact Hcmd|]. split.
  - unfold gen_next. simpl. rewrite Hcmd.
    destruct (popen env cmd) as [lines|e] eqn:Hp; simpl; [|eauto].
    pose proof (resume_cmdline env (generate_oneshot this prompt args) None
                  {| cmdline := cmd; stdout := lines; waited := false; killed := false |})
      as H.
    destruct (at_ _) as [|p|[p|]]; auto; contradiction.
  - intros ops.
    pose proof (run_settled env ops (generate_oneshot this prompt args) I) as H.
    unfold settled in H. revert H.
    assert (Hsame : forall ops g,
               self (fold_left (apply_operation env) ops g) = self g
               /\ Wrapper.prompt (fold_left (apply_operation env) ops g) = Wrapper.prompt g
               /\ Wrapper.args (fold_left (apply_operation env) ops g) = Wrapper.args g).
    { clear. intros ops. induction ops as [|op ops IH]; intros g; [auto|].
      simpl. destruct (IH (apply_operation env g op)) as (-> & -> & ->).
      destruct op as [|e|]; simpl; unfold gen_close, gen_throw, gen_next;
        destruct (at_ g) as [|p|[p|]]; simpl; auto using resume_call.
      destruct (popen env _); simpl; auto using resume_call. }
    destruct (Hsame ops (generate_oneshot this prompt args)) as (-> & -> & ->).
    simpl. rewrite Hcmd.
    destruct (at_ _) as [|p|[p|]]; tauto.
Qed.

(** The command line of the operator's call with its default properties. *)
Example command_line_of_execute :
  command_line {| binary_path := "/addon/bin/llama-cli";
                  model_path := "/addon/gguf/LLaMA-Mesh-Q8_0.gguf" |}
    "Generate a simple barrel model" ["-c 4096"; "-t 0.7"]
  = quoted "/addon/bin/llama-cli" +:+ " -ngl 999 -fa -c 4096 -t 0.7 -m "
      +:+ quoted "/addon/gguf/LLaMA-Mesh-Q8_0.gguf" +:+ " -p "
      +:+ quoted "Generate a simple barrel model".
Proof. reflexivity. Qed.

(** ** The callers do not catch what a download raises *)

Lemma ensure_gguf_propagates (env : Env) (model_url : string) (w : World)
    (resp : Response) :
  path_exists (gguf_dir w) (path_name model_url) = false ->
  urlopen env (requests w) model_url = Ok resp ->
  get_header (headers resp) "Content-Length" = None ->
  snd (_ensure_gguf env model_url w) = Raise TypeError.
Proof.
  intros Hnew Hopen Hmissing. unfold _ensure_gguf. simpl. rewrite Hnew.
  apply path_exists_false in Hnew as [Hdir _].
  unfold with_suffix.
  assert (Hname : is_empty (path_name model_url) = false).
  { unfold is_directory_name in Hdir. apply orb_false_iff in Hdir. tauto. }
  rewrite Hname.
  destruct (is_empty (suffix (path_name model_url)));
    unfold _progressive_download; simpl; rewrite Hopen, Hmissing; reflexivity.
Qed.

Lemma ensure_binary_propagates (env : Env) (url : string) (w : World)
    (resp : Response) :
  allspace (ver_info w) = true ->
  urlopen env (requests w) url = Ok resp ->
  get_header (headers resp) "Content-Length" = None ->
  snd (_ensure_binary env url w) = Raise TypeError.
Proof.
  intros Hblank Hopen Hmissing. unfold _ensure_binary. simpl.
  rewrite marker_blank by assumption. simpl.
  rewrite andb_false_r.
  unfold _progressive_download. simpl. rewrite Hopen, Hmissing. reflexivity.
Qed.

(** * Further properties *)

Import Measures.

(** ** The converters on other lines *)

Section ConverterExtras.

Lemma split_from_spaces (w : string) :
  forall cur rest,
    allspace w = true -> is_empty w = false ->
    split_from cur (w +:+ rest) = flush cur ++ split_from EmptyString rest.
Proof.
  induction w as [|c w IH]; intros cur rest Hw Hne; [discriminate|].
  simpl in Hw. apply andb_true_iff in Hw as [Hc Hw].
  rewrite app_cons. simpl. rewrite Hc. f_equal.
  destruct w as [|c' w]; [reflexivity|].
  rewrite IH by (assumption || reflexivity). reflexivity.
Qed.

Lemma split_leading_spaces (w rest : string) :
  allspace w = true -> split (w +:+ rest) = split rest.
Proof.
  intros Hw. destruct w as [|c w]; [reflexivity|].
  unfold split. rewrite split_from_spaces by (assumption || reflexivity).
  reflexivity.
Qed.

Lemma split_word_then_spaces (t w rest : string) :
  nospace t = true -> is_empty t = false ->
  allspace w = true -> is_empty w = false ->
  split (t +:+ w +:+ rest) = t :: split rest.
Proof.
  intros Ht Hne Hw Hwne. unfold split.
  rewrite split_from_word by assumption. rewrite app_empty_l.
  rewrite split_from_spaces by assumption.
  rewrite flush_nonempty by assumption. reflexivity.
Qed.

Lemma split_word_trailing_spaces (t w : string) :
  nospace t = true -> is_empty t = false -> allspace w = true ->
  split (t +:+ w) = [t].
Proof.
  intros Ht Hne Hw. destruct w as [|c w].
  - rewrite app_empty_r. apply split_word; assumption.
  - rewrite <- (app_empty_r (String c w)).
    rewrite split_word_then_spaces by (assumption || reflexivity). reflexivity.
Qed.

(** Three words with any blank space before, between and after them. *)
Lemma tokens_any_spacing (w0 t1 w1 t2 w2 t3 w3 : string) :
  allspace w0 = true -> allspace w3 = true ->
  allspace w1 = true -> is_empty w1 = false ->
  allspace w2 = true -> is_empty w2 = false ->
  Forall (fun t => nospace t = true /\ is_empty t = false) [t1; t2; t3] ->
  split (w0 +:+ t1 +:+ w1 +:+ t2 +:+ w2 +:+ t3 +:+ w3) = [t1; t2; t3].
Proof.
  intros H0 H3 H1 N1 H2 N2 Hts.
  apply Forall_cons in Hts as [[Ha Na] Hts].
  apply Forall_cons in Hts as [[Hb Nb] Hts].
  apply Forall_cons in Hts as [[Hc Nc] _].
  rewrite split_leading_spaces by assumption.
  rewrite split_word_then_spaces by assumption.
  rewrite split_word_then_spaces by assumption.
  rewrite split_word_trailing_spaces by assumption. reflexivity.
Qed.

(** *** Only [ValueError] comes out of the conversions *)

Lemma int_unsigned_raises (s : string) (e : exn) :
  int_unsigned s = Raise e -> e = ValueError.
Proof.
  unfold int_unsigned. destruct s as [|c s]; [congruence|].
  destruct (digit_val c); [|congruence].
  destruct (int_digits _ _ _ _) as [[v n]|]; [|congruence].
  destruct (int_max_str_digits <? n); congruence.
Qed.

Lemma py_int_raises (s : string) (e : exn) : py_int s = Raise e -> e = ValueError.
Proof.
  unfold py_int. destruct (num_strip s) as [|c r].
  - apply int_unsigned_raises.
  - assert (Hu : forall t, int_unsigned t = Raise e -> e = ValueError)
      by (intros t; apply int_unsigned_raises).
    assert (Hn : (v <- int_unsigned r;; Ok (- v)) = Raise e -> e = ValueError).
    { destruct (int_unsigned r) eqn:E; simpl; [discriminate|].
      intros [= <-]. eapply int_unsigned_raises. exact E. }
    destruct c as [[] [] [] [] [] [] [] []]; first [exact Hn | apply Hu].
Qed.

Lemma float_unsigned_raises (neg : bool) (s : string) (e : exn) :
  float_unsigned neg s = Raise e -> e = ValueError.
Proof.
  unfold float_unsigned.
  destruct (String.eqb (lower s) "inf" || String.eqb (lower s) "infinity");
    [discriminate|].
  destruct (String.eqb (lower s) "nan"); [discriminate|].
  destruct (read_digits 0 0 s) as [[ip ni] r1].
  destruct (match r1 with
            | String "." r => let '(m, n, r') := read_digits ip 0 r in (m, n, r')
            | _ => (ip, 0, r1)
            end) as [[m nf] r2].
  destruct (0 <? ni + nf); [|congruence].
  destruct (read_exponent r2); congruence.
Qed.

Lemma py_float_raises (s : string) (e : exn) : py_float s = Raise e -> e = ValueError.
Proof.
  unfold py_float. destruct (drop_underscores None (num_strip s)) as [t|];
    [|congruence].
  destruct (read_sign t) as [neg r].
  destruct (float_unsigned neg r) eqn:E; simpl; [discriminate|].
  intros [= <-]. eapply float_unsigned_raises. exact E.
Qed.

Lemma map_result_raises {A B} (f : A -> result B) (xs : list A) (e : exn) :
  map_result f xs = Raise e -> exists x, In x xs /\ f x = Raise e.
Proof.
  induction xs as [|x xs IH]; simpl; [discriminate|].
  destruct (f x) as [y|e'] eqn:Hx; simpl.
  - destruct (map_result f xs) as [ys|e'] eqn:Hxs; simpl; [discriminate|].
    intros [= <-]. destruct (IH eq_refl) as (x' & Hin & Hx'). eauto.
  - intros [= <-]. eauto.
Qed.

Lemma map_result_length {A B} (f : A -> result B) (xs : list A) (ys : list B) :
  map_result f xs = Ok ys -> length ys = length xs.
Proof.
  revert ys. induction xs as [|x xs IH]; intros ys; simpl.
  - intros [= <-]. reflexivity.
  - destruct (f x) as [y|e]; simpl; [|discriminate].
    destruct (map_result f xs) as [zs|e]; simpl; [|discriminate].
    intros [= <-]. simpl. f_equal. apply IH. reflexivity.
Qed.

Lemma obj_face_raises (line : string) (e : exn) :
  _obj_face_to_bpy line = Raise e -> e = ValueError.
Proof.
  unfold _obj_face_to_bpy. intros H.
  apply map_result_raises in H as (t & _ & Ht).
  destruct (py_int t) eqn:E; simpl in Ht; [discriminate|].
  injection Ht as <-. eapply py_int_raises. exact E.
Qed.

Lemma obj_vertex_raises (line : string) (e : exn) :
  _obj_vertex_to_bpy line = Raise e -> e = ValueError.
Proof.
  unfold _obj_vertex_to_bpy. intros H.
  apply map_result_raises in H as (t & _ & Ht).
  eapply py_float_raises. exact Ht.
Qed.

End ConverterExtras.

(** X1.  Blank space of any kind and length may stand before, between and
    after the three tokens of a vertex or face line: the converters give
    the same triple as for single blanks. *)
Theorem obj_lines_any_spacing (w0 t1 w1 t2 w2 t3 w3 : string) :
  allspace w0 = true -> allspace w3 = true ->
  allspace w1 = true -> is_empty w1 = false ->
  allspace w2 = true -> is_empty w2 = false ->
  nospace t1 = true -> nospace t2 = true -> nospace t3 = true ->
  let rest := w0 +:+ t1 +:+ w1 +:+ t2 +:+ w2 +:+ t3 +:+ w3 in
  (forall i j k,
      py_int t1 = Ok i -> py_int t2 = Ok j -> py_int t3 = Ok k ->
      _obj_face_to_bpy ("f " +:+ rest) = Ok [i - 1; j - 1; k - 1])
  /\ (forall x y z,
        py_float t1 = Ok x -> py_float t2 = Ok y -> py_float t3 = Ok z ->
        _obj_vertex_to_bpy ("v " +:+ rest) = Ok [x; y; z]).
Proof.
  intros H0 H3 H1 N1 H2 N2 Ha Hb Hc rest. split.
  - intros i j k Hi Hj Hk. unfold _obj_face_to_bpy.
    change (drop 2 ("f " +:+ rest)) with rest. unfold rest.
    rewrite tokens_any_spacing by
      (try assumption; repeat constructor; eauto using py_int_nonempty).
    simpl. rewrite Hi, Hj, Hk. reflexivity.
  - intros x y z Hx Hy Hz. unfold _obj_vertex_to_bpy.
    change (drop 2 ("v " +:+ rest)) with rest. unfold rest.
    rewrite tokens_any_spacing by
      (try assumption; repeat constructor; eauto using py_float_nonempty).
    simpl. rewrite Hx, Hy, Hz. reflexivity.
Qed.

(** A face line indented with tabs and closed by a carriage return. *)
Lemma obj_lines_any_spacing_witness :
  _obj_face_to_bpy ("f " +:+ String "009" EmptyString +:+ "1" +:+ "  " +:+ "2"
                      +:+ String "009" EmptyString +:+ "3" +:+ String "013" EmptyString)
  = Ok [0; 1; 2].
Proof.
  exact (proj1 (obj_lines_any_spacing (String "009" EmptyString) "1" "  " "2"
                  (String "009" EmptyString) "3" (String "013" EmptyString)
                  eq_refl eq_refl eq_refl eq_refl eq_refl eq_refl
                  eq_refl eq_refl eq_refl)
               1 2 3 eq_refl eq_refl eq_refl).
Defined.

(** X2.  A converter returns one value for each token after the tag,
    however many there are, and when it raises the exception is
    [ValueError], caused by a token that [int] or [float] rejects. *)
Theorem obj_converters_outcome (line : string) :
  (forall ns, _obj_face_to_bpy line = Ok ns ->
              length ns = length (split (drop 2 line)))
  /\ (forall xs, _obj_vertex_to_bpy line = Ok xs ->
                 length xs = length (split (drop 2 line)))
  /\ (forall e, _obj_face_to_bpy line = Raise e ->
                e = ValueError
                /\ exists t, In t (split (drop 2 line)) /\ py_int t = Raise ValueError)
  /\ (forall e, _obj_vertex_to_bpy line = Raise e ->
                e = ValueError
                /\ exists t, In t (split (drop 2 line)) /\ py_float t = Raise ValueError).
Proof.
  split; [|split; [|split]].
  - intros ns. apply map_result_length.
  - intros xs. apply map_result_length.
  - intros e H. pose proof (obj_face_raises line e H) as ->. split; [reflexivity|].
    apply map_result_raises in H as (t & Hin & Ht). exists t. split; [exact Hin|].
    destruct (py_int t) as [n|e'] eqn:E; simpl in Ht; [discriminate|].
    f_equal. eapply py_int_raises. exact E.
  - intros e H. pose proof (obj_vertex_raises line e H) as ->. split; [reflexivity|].
    apply map_result_raises in H as (t & Hin & Ht). eauto.
Qed.

(** ** The loop of [execute] over whole streams *)

Section ScanExtras.

Variable from_pydata_raises : list vertex -> list face -> list face -> option exn.

Local Abbreviation scan_line := (scan_line from_pydata_raises).
Local Abbreviation scan := (scan from_pydata_raises).

Lemma scan_line_not_obj (st : ExecState) (line : string) :
  is_obj_line line = false -> scan_line st line = (st, None).
Proof.
  unfold is_obj_line. intros H. apply orb_false_iff in H as [Hv Hf].
  apply scan_line_other; assumption.
Qed.

(** What a turn that does not raise does to the state. *)
Lemma scan_line_step (st st' : ExecState) (line : string) :
  scan_line st line = (st', None) ->
  mesh_name st' = mesh_name st /\ object_name st' = object_name st
  /\ edges st' = edges st
  /\ length (verts st') = (length (verts st) + if is_vertex_line line then 1 else 0)%nat
  /\ length (faces st') = (length (faces st) + if is_face_line line then 1 else 0)%nat
  /\ redraws st' = (redraws st + if is_obj_line line then 1 else 0)%nat
  /\ (is_obj_line line = true ->
      geometry st' = Some (verts st', edges st', faces st'))
  /\ (is_obj_line line = false -> st' = st).
Proof.
  unfold Addon.scan_line, is_vertex_line, is_face_line, is_obj_line, rebuild.
  destruct (startswith "v " line) eqn:Hv; destruct (startswith "f " line) eqn:Hf;
    cbn [negb andb orb].
  1, 2: destruct (_obj_vertex_to_bpy line) as [v|e]; [|discriminate].
  3: destruct (_obj_face_to_bpy line) as [f|e]; [|discriminate].
  1, 2, 3: cbn [verts edges faces with_lists];
    destruct (from_pydata_raises _ _ _); [discriminate|];
    intros [= <-]; cbn; rewrite ?length_app; cbn;
    repeat split; try lia; try reflexivity; try discriminate.
  intros [= <-]. repeat split; try lia; try reflexivity; try discriminate.
Qed.

(** A turn, raising or not, only ever appends to the lists. *)
Lemma scan_line_prefix (st st' : ExecState) (line : string) (r : option exn) :
  scan_line st line = (st', r) ->
  verts st `prefix_of` verts st' /\ faces st `prefix_of` faces st'
  /\ mesh_name st' = mesh_name st /\ object_name st' = object_name st.
Proof.
  intros H.
  assert (Hn : mesh_name st' = mesh_name st /\ object_name st' = object_name st).
  { revert H. unfold Addon.scan_line.
    destruct (startswith "v " line).
    - destruct (_obj_vertex_to_bpy line); [|intros [= <- <-]; auto].
      intros H. apply rebuild_lists in H. simpl in H. tauto.
    - destruct (startswith "f " line); [|intros [= <- <-]; auto].
      destruct (_obj_face_to_bpy line); [|intros [= <- <-]; auto].
      intros H. apply rebuild_lists in H. simpl in H. tauto. }
  destruct (scan_line_lists _ _ _ _ _ H)
    as [[Hv Hf] | [(_ & Hf & v & _ & Hv) | (_ & _ & Hv & f & _ & Hf)]];
    rewrite Hv, Hf; repeat split; try tauto;
    first [reflexivity | apply prefix_app_r; reflexivity].
Qed.

Lemma scan_keeps_names (lines : list string) :
  forall st st' r,
    scan st lines = (st', r) ->
    mesh_name st' = mesh_name st /\ object_name st' = object_name st.
Proof.
  induction lines as [|l lines IH]; intros st st' r H.
  - injection H as <- <-. auto.
  - simpl in H. destruct (scan_line st l) as [st1 [e|]] eqn:Hl.
    + injection H as <- <-. apply scan_line_prefix in Hl. tauto.
    + apply scan_line_prefix in Hl as (_ & _ & Hm & Ho).
      destruct (IH st1 st' r H) as [Hm' Ho']. split; congruence.
Qed.

End ScanExtras.

(** X3.  Scanning a stream in two parts is scanning the first part and
    then, if that part raised nothing, the second part from the state
    reached; a part that raises ends the scan, whatever follows. *)
Theorem scan_app
    (from_pydata_raises : list vertex -> list face -> list face -> option exn)
    (l1 l2 : list string) :
  forall st,
    scan from_pydata_raises st (l1 ++ l2)
    = match scan from_pydata_raises st l1 with
      | (st1, None) => scan from_pydata_raises st1 l2
      | (st1, Some e) => (st1, Some e)
      end.
Proof.
  induction l1 as [|l l1 IH]; intros st; [reflexivity|].
  simpl. destruct (Addon.scan_line from_pydata_raises st l) as [st' [e|]];
    [reflexivity|]. apply IH.
Qed.

(** X4.  The scan of a stream is the scan of its vertex and face lines
    alone: every other line can be removed without any change to the final
    state or to the exception raised. *)
Theorem scan_filter
    (from_pydata_raises : list vertex -> list face -> list face -> option exn)
    (lines : list string) :
  forall st,
    scan from_pydata_raises st lines
    = scan from_pydata_raises st (filter (fun l => is_obj_line l = true) lines).
Proof.
  induction lines as [|l lines IH]; intros st; [reflexivity|].
  rewrite filter_cons. destruct (decide (is_obj_line l = true)) as [H|H].
  - simpl. destruct (Addon.scan_line from_pydata_raises st l) as [st' [e|]];
      [reflexivity|]. apply IH.
  - apply not_true_is_false in H. simpl.
    rewrite scan_line_not_obj by assumption. apply IH.
Qed.

(** X5.  After a scan that raised nothing, the lists hold one vertex for
    each vertex line and one face for each face line of the stream, the
    viewport was redrawn once for each of them, no edge was ever added, and,
    if there was any such line, the geometry of the mesh is exactly the
    three lists. *)
Theorem scan_counts
    (from_pydata_raises : list vertex -> list face -> list face -> option exn)
    (lines : list string) :
  forall st st',
    scan from_pydata_raises st lines = (st', None) ->
    length (verts st') = (length (verts st) + count_lines is_vertex_line lines)%nat
    /\ length (faces st') = (length (faces st) + count_lines is_face_line lines)%nat
    /\ redraws st' = (redraws st + count_lines is_obj_line lines)%nat
    /\ edges st' = edges st
    /\ (count_lines is_obj_line lines <> 0%nat ->
        geometry st' = Some (verts st', edges st', faces st'))
    /\ (count_lines is_obj_line lines = 0%nat -> st' = st).
Proof.
  unfold count_lines.
  induction lines as [|l lines IH]; intros st st' H.
  - injection H as <-. simpl.
    split; [lia|]. split; [lia|]. split; [lia|]. split; [reflexivity|].
    split; [intros Hc; contradiction | reflexivity].
  - simpl in H.
    destruct (Addon.scan_line from_pydata_raises st l) as [st1 [e|]] eqn:Hl;
      [discriminate|].
    apply scan_line_step in Hl as (_ & _ & He & Hv & Hf & Hr & Hg & Hsame).
    destruct (IH st1 st' H) as (Hv' & Hf' & Hr' & He' & Hg' & Hsame').
    rewrite !filter_cons.
    split; [|split; [|split; [|split; [congruence|]]]].
    + destruct (decide (is_vertex_line l = true)) as [E|E];
        [|apply not_true_is_false in E]; rewrite E in Hv; simpl; lia.
    + destruct (decide (is_face_line l = true)) as [E|E];
        [|apply not_true_is_false in E]; rewrite E in Hf; simpl; lia.
    + destruct (decide (is_obj_line l = true)) as [E|E];
        [|apply not_true_is_false in E]; rewrite E in Hr; simpl; lia.
    + destruct (decide (is_obj_line l = true)) as [E|E].
      * split; [|intros Hc; discriminate Hc]. intros _.
        destruct (decide (length (filter (fun l0 => is_obj_line l0 = true) lines)
                          = 0%nat)) as [Z|Z].
        -- rewrite (Hsame' Z). apply Hg. exact E.
        -- apply Hg'. exact Z.
      * apply not_true_is_false in E. rewrite (Hsame E) in *.
        split; assumption.
Qed.

(** A stream of the repository's test data: four relevant lines. *)
Lemma scan_counts_witness :
  let lines := ["```obj"; "v 0 12 15"; "v 0 12 18"; "v 0 48 15"; "f 1 2 3"; "```"] in
  let st := fst (scan (fun _ _ _ => None) (new_state "simple_table_model") lines) in
  length (verts st) = 3%nat /\ length (faces st) = 1%nat /\ redraws st = 4%nat.
Proof.
  intros lines st.
  destruct (scan_counts (fun _ _ _ => None) lines (new_state "simple_table_model") st
              eq_refl) as (Hv & Hf & Hr & _).
  repeat split; assumption.
Defined.

(** X6.  Whether it raises or not, a scan only appends: the vertex list and
    the face list it started from are prefixes of those it ends with, and
    the names of the mesh and of the object stay as they were. *)
Theorem scan_only_appends
    (from_pydata_raises : list vertex -> list face -> list face -> option exn)
    (lines : list string) :
  forall st st' r,
    scan from_pydata_raises st lines = (st', r) ->
    verts st `prefix_of` verts st' /\ faces st `prefix_of` faces st'
    /\ mesh_name st' = mesh_name st /\ object_name st' = object_name st.
Proof.
  induction lines as [|l lines IH]; intros st st' r H.
  - injection H as <- <-. repeat split; reflexivity.
  - simpl in H.
    destruct (Addon.scan_line from_pydata_raises st l) as [st1 [e|]] eqn:Hl.
    + injection H as <- <-. eapply scan_line_prefix. exact Hl.
    + apply scan_line_prefix in Hl as (Hv & Hf & Hm & Ho).
      destruct (IH st1 st' r H) as (Hv' & Hf' & Hm' & Ho').
      repeat split; try congruence; etrans; eassumption.
Qed.

(** A scan cut short by a malformed vertex keeps what came before. *)
Lemma scan_only_appends_witness :
  let st := with_lists (new_state "table") [[0; 12; 15]%float] [] in
  let st' := fst (scan (fun _ _ _ => None) st ["v 0 12 18"; "v 0 x 1"; "f 1 2 3"]) in
  verts st `prefix_of` verts st' /\ faces st `prefix_of` faces st'.
Proof.
  intros st st'.
  destruct (scan_only_appends (fun _ _ _ => None)
              ["v 0 12 18"; "v 0 x 1"; "f 1 2 3"] st st' (Some ValueError) eq_refl)
    as (Hv & Hf & _).
  split; assumption.
Defined.

(** X7.  When Blender accepts every list it is handed and the stream ends
    normally, the only exceptions [execute] raises are [StopIteration] on an
    empty stream, before any mesh is created, and [ValueError] from a
    vertex or face line with a malformed number. *)
Theorem execute_raises_only_value_error
    (from_pydata_raises : list vertex -> list face -> list face -> option exn)
    (lines : list string) (st : option ExecState) (e : exn) :
  (forall vs es fs, from_pydata_raises vs es fs = None) ->
  execute from_pydata_raises lines None = (st, Raise e) ->
  (lines = [] /\ st = None /\ e = StopIteration)
  \/ (lines <> [] /\ e = ValueError).
Proof.
  intros Hfp. destruct lines as [|first rest]; simpl.
  - intros [= <- <-]. left. auto.
  - intros H. right. split; [discriminate|].
    destruct (scan from_pydata_raises _ rest) as [st1 [e1|]] eqn:Hs;
      [|discriminate].
    injection H as _ <-.
    revert Hs. generalize (new_state (join "_" (map lower (split (strip first))))).
    induction rest as [|l rest IH]; intros st0; simpl; [discriminate|].
    destruct (Addon.scan_line from_pydata_raises st0 l) as [st2 [e2|]] eqn:Hl.
    + intros [= _ <-]. revert Hl. unfold Addon.scan_line, rebuild.
      destruct (startswith "v " l).
      * destruct (_obj_vertex_to_bpy l) eqn:Hc; [rewrite Hfp; discriminate|].
        intros [= _ <-]. eapply obj_vertex_raises. exact Hc.
      * destruct (startswith "f " l); [|discriminate].
        destruct (_obj_face_to_bpy l) eqn:Hc; [rewrite Hfp; discriminate|].
        intros [= _ <-]. eapply obj_face_raises. exact Hc.
    + apply IH.
Qed.

(** A face line with a word for an index, after one good vertex. *)
Lemma execute_raises_only_value_error_witness :
  exists st e,
    execute (fun _ _ _ => None) ["Table"; "v 0 12 15"; "f 1 2 three"] None
    = (Some st, Raise e)
    /\ verts st = [[0; 12; 15]%float] /\ faces st = [] /\ e = ValueError.
Proof.
  eexists. exists ValueError. split; [reflexivity|]. split; [reflexivity|].
  split; [reflexivity|].
  destruct (execute_raises_only_value_error (fun _ _ _ => None)
              ["Table"; "v 0 12 15"; "f 1 2 three"] _ ValueError
              (fun _ _ _ => eq_refl) eq_refl) as [(H & _) | (_ & H)].
  - discriminate H.
  - exact H.
Defined.

(** ** More on [_progressive_download] *)

Section DownloadExtras.

Variable env : Env.






End DownloadExtras.





(** X10.  When the request fails, the call raises what [urlopen] raised;
    when the Content-Length field is not a number, it raises [ValueError].
    In both cases nothing was written to the file or printed. *)
Theorem progressive_download_early_failure
    (env : Env) (w : World) (url : string) (save_file : bytes) :
  (forall e,
      urlopen env (requests w) url = Raise e ->
      _progressive_download env w url save_file
      = (add_request w url, save_file, Some e))
  /\ (forall resp value e,
        urlopen env (requests w) url = Ok resp ->
        get_header (headers resp) "Content-Length" = Some value ->
        py_int value = Raise e ->
        _progressive_download env w url save_file
        = (add_request w url, save_file, Some ValueError)).
Proof.
  split.
  - intros e H. unfold _progressive_download. rewrite H. reflexivity.
  - intros resp value e Hopen Hvalue Hint.
    unfold _progressive_download. rewrite Hopen, Hvalue. simpl. rewrite Hint.
    rewrite (py_int_raises value e Hint). reflexivity.
Qed.

Lemma progressive_download_early_failure_witness :
  _progressive_download (linux_env (Raise URLError) []) empty_world
    "htp:/nowhere" EmptyString
  = (add_request empty_world "htp:/nowhere", EmptyString, Some URLError)
  /\ _progressive_download
       (linux_env (Ok {| headers := [("Content-Length", "5 bytes")];
                         body := [Data "PKzip"] |}) [])
       empty_world linux_binary_url EmptyString
     = (add_request empty_world linux_binary_url, EmptyString, Some ValueError).
Proof.
  split.
  - exact (proj1 (progressive_download_early_failure (linux_env (Raise URLError) [])
                    empty_world "htp:/nowhere" EmptyString)
                 URLError eq_refl).
  - exact (proj2 (progressive_download_early_failure
                    (linux_env (Ok {| headers := [("Content-Length", "5 bytes")];
                                      body := [Data "PKzip"] |}) [])
                    empty_world linux_binary_url EmptyString)
                 _ "5 bytes" ValueError eq_refl eq_refl eq_refl).
Defined.

(** ** More on [_ensure_binary] *)

Section EnsureBinaryExtras.

Variable env : Env.
Variable url : string.


(** The world in which the download of the binary starts. *)
Lemma ensure_binary_unfold (w : World) (os build : string) :
  old_binary (splitlines (strip (read_text (ver_info w)))) = Ok (os, build) ->
  String.eqb os (platform_system env) && String.eqb build _LLAMA_CPP_BUILD = false ->
  _ensure_binary env url w
  = let w0 := set_bin_dir
                (print (checking w) (PrintLine "Downloading new llama.cpp binary")) ∅ in
    let '(w1, zip_data, r) := _progressive_download env w0 url EmptyString in
    match r with
    | Some e => (w1, Raise e)
    | None =>
        match zip_members env zip_data with
        | Raise e => (w1, Raise e)
        | Ok members =>
            match extract members (bin_dir w1) with
            | (dir, Some e) => (set_bin_dir w1 dir, Raise e)
            | (dir, None) =>
                (set_ver_info (set_bin_dir w1 dir)
                   (write_text env (current_marker env)), Ok tt)
            end
        end
    end.
Proof.
  intros Hold Hc. unfold _ensure_binary. simpl. rewrite Hold, Hc. reflexivity.
Qed.



Lemma extract_keeps_or_fails (members : list (string * result bytes)) :
  forall dir dir' e,
    extract members dir = (dir', Some e) ->
    e = IsADirectoryError \/ exists name, In (name, Raise e) members.
Proof.
  induction members as [|[zipped_file [data|e0]] members IH]; intros dir dir' e H;
    simpl in H.
  - discriminate H.
  - destruct (is_directory_name (path_name zipped_file)).
    + injection H as _ <-. left. reflexivity.
    + destruct (IH _ _ _ H) as [->|[name Hin]]; [left; reflexivity|].
      right. exists name. right. exact Hin.
  - injection H as _ <-. right. exists zipped_file. left. reflexivity.
Qed.

End EnsureBinaryExtras.

(** X11.  A call that raises never touches the marker or the model
    directory; and if it raised after asking for the binary, the call
    repeated asks for it again. *)
Theorem ensure_binary_failure_keeps_marker
    (env : Env) (url : string) (w : World) (e : exn) :
  let after := fst (_ensure_binary env url w) in
  snd (_ensure_binary env url w) = Raise e ->
  ver_info after = ver_info w
  /\ gguf_dir after = gguf_dir w
  /\ (requests after = requests w ++ [url] ->
      requests (fst (_ensure_binary env url after)) = requests after ++ [url]).
Proof.
  intros after Hraise. subst after.
  destruct (old_binary (splitlines (strip (read_text (ver_info w)))))
    as [[os build]|e0] eqn:Hold.
  - destruct (String.eqb os (platform_system env) && String.eqb build _LLAMA_CPP_BUILD)
      eqn:Hc.
    + rewrite (ensure_binary_skip env url w os build Hold Hc) in Hraise.
      discriminate Hraise.
    + assert (Hkeep : ver_info (fst (_ensure_binary env url w)) = ver_info w
                      /\ gguf_dir (fst (_ensure_binary env url w)) = gguf_dir w).
      { revert Hraise. rewrite (ensure_binary_unfold env url w os build Hold Hc).
        cbv zeta.
        destruct (_progressive_download _ _ _ _) as [[w1 zip_data] r] eqn:Hd.
        apply progressive_download_world in Hd as (_ & Hv & _ & Hg).
        simpl in Hv, Hg.
        destruct r as [e1|]; [auto|].
        destruct (zip_members env zip_data) as [members|e1]; [|auto].
        destruct (extract members (bin_dir w1)) as [dir [e1|]]; simpl; [auto|].
        discriminate. }
      destruct Hkeep as [Hv Hg]. split; [exact Hv|]. split; [exact Hg|].
      intros _.
      apply (ensure_binary_download env url _ os build); [|exact Hc].
      rewrite Hv. exact Hold.
  - rewrite (ensure_binary_raise env url w e0 Hold). simpl.
    split; [reflexivity|]. split; [reflexivity|].
    intros H. symmetry in H. exfalso. exact (snoc_neq _ _ H).
Qed.

(** The network is down twice in a row. *)
Lemma ensure_binary_failure_keeps_marker_witness :
  let env := linux_env (Raise URLError) [] in
  let w := world_with_marker ("Windows" +:+ String "010" EmptyString +:+ "b4227") in
  let after := fst (_ensure_binary env linux_binary_url w) in
  ver_info after = ver_info w
  /\ requests (fst (_ensure_binary env linux_binary_url after))
     = [linux_binary_url; linux_binary_url].
Proof.
  intros env w after.
  destruct (ensure_binary_failure_keeps_marker env linux_binary_url w URLError eq_refl)
    as (Hv & _ & Hagain).
  split; [exact Hv|]. exact (Hagain eq_refl).
Defined.





(** ** The tables of platforms *)

Section PlatformFacts.

Variable env : Env.

Lemma getitem_system :
  platform_system env ∈ supported_systems
  <-> exists v, getitem _SYSTEM_TO_FILE_NAME (platform_system env) = Ok v.
Proof.
  unfold supported_systems, getitem, _SYSTEM_TO_FILE_NAME. simpl.
  rewrite !elem_of_cons, elem_of_nil.
  destruct (decide (platform_system env = "Linux")) as [->|N1];
    [split; [eauto | auto]|].
  destruct (decide (platform_system env = "Windows")) as [->|N2];
    [split; [eauto | auto]|].
  destruct (decide (platform_system env = "Darwin")) as [->|N3];
    [split; [eauto | auto]|].
  rewrite !lookup_insert_ne, lookup_empty by congruence.
  split; [tauto | intros [v H]; discriminate H].
Qed.

Lemma getitem_machine :
  platform_machine env ∈ supported_machines
  <-> exists v, getitem _ARCH_TO_FILE_NAME (platform_machine env) = Ok v.
Proof.
  unfold supported_machines, getitem, _ARCH_TO_FILE_NAME. simpl.
  rewrite !elem_of_cons, elem_of_nil.
  destruct (decide (platform_machine env = "AMD64")) as [->|N1];
    [split; [eauto | auto]|].
  destruct (decide (platform_machine env = "x86_64")) as [->|N2];
    [split; [eauto | auto]|].
  destruct (decide (platform_machine env = "arm64")) as [->|N3];
    [split; [eauto | auto]|].
  rewrite !lookup_insert_ne, lookup_empty by congruence.
  split; [tauto | intros [v H]; discriminate H].
Qed.

Lemma getitem_raises (d : gmap string string) (k : string) (e : exn) :
  getitem d k = Raise e -> e = KeyError.
Proof. unfold getitem. destruct (d !! k); congruence. Qed.

End PlatformFacts.

(** X14.  On the three systems and three machines of the tables the
    module imports: the name of the executable is defined, the last
    component of the download URL is the name of the archive, and the
    import ends as [_ensure_binary] does.  On any other platform the import
    raises [KeyError] before anything is printed, read or requested. *)
Theorem import_module_platforms (env : Env) (w : World) :
  (platform_system env ∈ supported_systems ->
   platform_machine env ∈ supported_machines ->
   exists zip url file,
     _BINARY_ZIP_NAME env = Ok zip /\ _BINARY_URL env = Ok url
     /\ path_name url = zip /\ _BINARY_FILE_NAME env = Ok file
     /\ import_module env w = _ensure_binary env url w)
  /\ (~ (platform_system env ∈ supported_systems
         /\ platform_machine env ∈ supported_machines) ->
      import_module env w = (w, Raise KeyError)).
Proof.
  split.
  - unfold supported_systems, supported_machines.
    rewrite !elem_of_cons, !elem_of_nil.
    unfold import_module, _BINARY_URL, _BINARY_FILE_NAME, _BINARY_ZIP_NAME.
    intros [Hs | [Hs | [Hs | []]]] [Hm | [Hm | [Hm | []]]];
      rewrite Hs, Hm; do 3 eexists; repeat split; reflexivity.
  - intros Hnot. unfold import_module, _BINARY_URL, _BINARY_ZIP_NAME.
    destruct (getitem _SYSTEM_TO_FILE_NAME (platform_system env)) as [s|e] eqn:Hs.
    + destruct (getitem _ARCH_TO_FILE_NAME (platform_machine env)) as [a|e] eqn:Hm.
      * exfalso. apply Hnot. split.
        -- apply getitem_system. eauto.
        -- apply getitem_machine. eauto.
      * simpl. rewrite (getitem_raises _ _ _ Hm). reflexivity.
    + simpl. rewrite (getitem_raises _ _ _ Hs). reflexivity.
Qed.

(** A Linux machine with an x86-64 processor, and a BSD one. *)
Lemma import_module_platforms_witness :
  (exists url, _BINARY_URL (linux_env (Ok sized_response) []) = Ok url
               /\ path_name url = "llama-b4227-bin-ubuntu-x64.zip")
  /\ import_module
       {| platform_system := "FreeBSD"; platform_machine := "amd64";
          root := "/addon"; urlopen := fun _ _ => Raise URLError;
          zip_members := fun _ => Raise BadZipFile;
          popen := fun _ => Raise OSError; decode_utf8 := fun b => Ok b |}
       empty_world
     = (empty_world, Raise KeyError).
Proof.
  split.
  - destruct (proj1 (import_module_platforms (linux_env (Ok sized_response) [])
                       empty_world))
      as (zip & url & file & Hzip & Hurl & Hname & _).
    + unfold supported_systems. rewrite !elem_of_cons. auto.
    + unfold supported_machines. rewrite !elem_of_cons. auto.
    + exists url. split; [exact Hurl|]. rewrite Hname.
      vm_compute in Hzip. injection Hzip as <-. reflexivity.
  - apply (proj2 (import_module_platforms _ empty_world)).
    intros [Hs _]. unfold supported_systems in Hs.
    rewrite !elem_of_cons, elem_of_nil in Hs. simpl in Hs.
    destruct Hs as [H | [H | [H | []]]]; discriminate H.
Defined.

(** ** More on [_ensure_gguf] and the constructor *)

Section EnsureGgufExtras.

Variable env : Env.

Lemma path_parts_only_slashes (s : string) :
  only_slashes s = true -> path_parts_from EmptyString s = [].
Proof.
  induction s as [|c s IH]; [reflexivity|].
  simpl. intros H. apply andb_true_iff in H as [Hc Hs].
  rewrite Hc. simpl. apply IH. exact Hs.
Qed.

Lemma path_name_only_slashes (s : string) :
  only_slashes s = true -> path_name s = EmptyString.
Proof. intros H. unfold path_name. rewrite path_parts_only_slashes by exact H. reflexivity. Qed.

Lemma with_suffix_defined (name : string) :
  is_empty name = false -> exists dl_name, with_suffix name ".temp" = Ok dl_name.
Proof.
  intros H. unfold with_suffix. rewrite H.
  destruct (is_empty (suffix name)); eauto.
Qed.

(** The run of [_ensure_gguf] when the model is not there yet. *)
Lemma ensure_gguf_unfold (model_url : string) (w : World) (dl_name : string) :
  path_exists (gguf_dir w) (path_name model_url) = false ->
  with_suffix (path_name model_url) ".temp" = Ok dl_name ->
  _ensure_gguf env model_url w
  = let w0 := set_gguf_dir
                (print (print w (PrintLine "Checking for gguf file"))
                   (PrintLine "Downloading new gguf file"))
                (<[dl_name := EmptyString]> (gguf_dir w)) in
    let '(w1, written, r) := _progressive_download env w0 model_url EmptyString in
    let w2 := set_gguf_dir w1 (<[dl_name := written]> (gguf_dir w1)) in
    match r with
    | Some e => (w2, Raise e)
    | None =>
        (set_gguf_dir w2
           (<[path_name model_url := written]> (delete dl_name (gguf_dir w2))),
         Ok tt)
    end.
Proof.
  intros Hnew Hdl. unfold _ensure_gguf. simpl. rewrite Hnew, Hdl. reflexivity.
Qed.

(** After a call that returned, the model path exists. *)
Lemma ensure_gguf_ok_exists (model_url : string) (w : World) :
  snd (_ensure_gguf env model_url w) = Ok tt ->
  path_exists (gguf_dir (fst (_ensure_gguf env model_url w))) (path_name model_url)
  = true.
Proof.
  destruct (path_exists (gguf_dir w) (path_name model_url)) eqn:Hex.
  - rewrite (ensure_gguf_cached env model_url w Hex). simpl. intros _. exact Hex.
  - pose proof Hex as Hnew. apply path_exists_false in Hex as [Hdir _].
    assert (Hname : is_empty (path_name model_url) = false).
    { unfold is_directory_name in Hdir. apply orb_false_iff in Hdir. tauto. }
    destruct (with_suffix_defined _ Hname) as [dl_name Hdl].
    rewrite (ensure_gguf_unfold model_url w dl_name Hnew Hdl). cbv zeta.
    destruct (_progressive_download _ _ _ _) as [[w1 written] [e|]]; simpl;
      [discriminate|].
    intros _. unfold path_exists. rewrite lookup_insert_eq.
    apply orb_true_iff. right. apply bool_decide_eq_true. eauto.
Qed.

End EnsureGgufExtras.



(** X16.  The cache goes by file name alone: once a call for one URL has
    returned, a call for any URL with the same last path component returns
    after the check message, with no request and no file changed, also
    when the two URLs differ. *)
Theorem ensure_gguf_cache_by_name
    (env : Env) (url1 url2 : string) (w : World) :
  snd (_ensure_gguf env url1 w) = Ok tt ->
  path_name url2 = path_name url1 ->
  _ensure_gguf env url2 (fst (_ensure_gguf env url1 w))
  = (print (fst (_ensure_gguf env url1 w)) (PrintLine "Checking for gguf file"),
     Ok tt).
Proof.
  intros Hok Hname. apply ensure_gguf_cached. rewrite Hname.
  apply ensure_gguf_ok_exists. exact Hok.
Qed.

(** Another repository offering a file of the same name. *)
Lemma ensure_gguf_cache_by_name_witness :
  let env := linux_env (Ok sized_response) [] in
  let url1 := "https://huggingface.co/bartowski/LLaMA-Mesh-GGUF/resolve/main/LLaMA-Mesh-Q8_0.gguf" in
  let url2 := "https://example.org/other/LLaMA-Mesh-Q8_0.gguf" in
  requests (fst (_ensure_gguf env url2 (fst (_ensure_gguf env url1 empty_world))))
  = [url1].
Proof.
  intros env url1 url2.
  rewrite (ensure_gguf_cache_by_name env url1 url2 empty_world eq_refl eq_refl).
  reflexivity.
Defined.

(** X17.  For a model URL that is empty or made of slashes only, the model
    path is the model directory itself: the constructor returns after the
    check message without any request, and the wrapper it builds has that
    directory as its model path. *)
Theorem new_wrapper_directory_url
    (env : Env) (model_url : string) (w : World) (file : string) :
  only_slashes model_url = true ->
  _BINARY_FILE_NAME env = Ok file ->
  new_wrapper env model_url w
  = (print w (PrintLine "Checking for gguf file"),
     Ok {| binary_path := join_path env (_BINARY_DIR env) file;
           model_path := _GGUF_DIR env |}).
Proof.
  intros Hurl Hfile. unfold new_wrapper. rewrite Hfile.
  pose proof (path_name_only_slashes model_url Hurl) as Hname.
  rewrite (ensure_gguf_cached env model_url w)
    by (rewrite Hname; reflexivity).
  rewrite Hname. reflexivity.
Qed.

Lemma new_wrapper_directory_url_witness :
  new_wrapper (linux_env (Raise URLError) []) EmptyString empty_world
  = (print empty_world (PrintLine "Checking for gguf file"),
     Ok {| binary_path := "/addon/bin/llama-cli"; model_path := "/addon/gguf" |}).
Proof.
  exact (new_wrapper_directory_url (linux_env (Raise URLError) []) EmptyString
           empty_world "llama-cli" eq_refl eq_refl).
Defined.

(** X18.  When the constructor returns a wrapper, the path it will hand to
    the program with the model flag exists in the model directory, and is
    that directory joined with the last component of the URL. *)
Theorem new_wrapper_model_exists
    (env : Env) (model_url : string) (w w' : World) (this : LlamaCppWrapper) :
  new_wrapper env model_url w = (w', Ok this) ->
  path_exists (gguf_dir w') (path_name model_url) = true
  /\ model_path this = join_path env (_GGUF_DIR env) (path_name model_url)
  /\ exists file,
       _BINARY_FILE_NAME env = Ok file
       /\ binary_path this = join_path env (_BINARY_DIR env) file.
Proof.
  unfold new_wrapper. destruct (_BINARY_FILE_NAME env) as [file|e]; [|discriminate].
  pose proof (ensure_gguf_ok_exists env model_url w) as Hex.
  destruct (_ensure_gguf env model_url w) as [w1 [[]|e]]; [|discriminate].
  intros [= <- <-]. simpl in *. split; [apply Hex; reflexivity|].
  split; [reflexivity|]. eauto.
Qed.

Lemma new_wrapper_model_exists_witness :
  let url := "https://huggingface.co/bartowski/LLaMA-Mesh-GGUF/resolve/main/LLaMA-Mesh-Q8_0.gguf" in
  let run := new_wrapper (linux_env (Ok sized_response) []) url empty_world in
  exists this,
    snd run = Ok this
    /\ model_path this = "/addon/gguf/LLaMA-Mesh-Q8_0.gguf"
    /\ gguf_dir (fst run) !! "LLaMA-Mesh-Q8_0.gguf" = Some "PKzip".
Proof.
  intros url run. eexists. split; [reflexivity|].
  destruct (new_wrapper_model_exists (linux_env (Ok sized_response) []) url empty_world
              (fst run) _ eq_refl) as (_ & Hpath & _).
  split; [exact Hpath | reflexivity].
Defined.

(** ** More on [generate_oneshot] *)

Import Operator.

Section GeneratorExtras.

Variable env : Env.

(** *** [strip] gives a string with no blank space at either end *)

Lemma lstrip_shape (s : string) :
  lstrip s = EmptyString \/ starts_nonspace (lstrip s) = true.
Proof.
  induction s as [|c s IH]; [left; reflexivity|].
  simpl. destruct (isspace c) eqn:Hc; [exact IH|].
  right. simpl. rewrite Hc. reflexivity.
Qed.

Lemma rstrip_keeps_start (s : string) :
  starts_nonspace s = true -> starts_nonspace (rstrip s) = true.
Proof.
  destruct s as [|c s]; [discriminate|]. simpl. intros Hc.
  destruct (rstrip s); [|exact Hc].
  apply negb_true_iff in Hc. rewrite Hc. simpl. rewrite Hc. reflexivity.
Qed.

Lemma rstrip_shape (s : string) :
  rstrip s = EmptyString \/ ends_nonspace (rstrip s) = true.
Proof.
  induction s as [|c s IH]; [left; reflexivity|].
  simpl. destruct (rstrip s) as [|c' r].
  - destruct (isspace c) eqn:Hc; [left; reflexivity|].
    right. simpl. rewrite Hc. reflexivity.
  - right. destruct IH as [IH|IH]; [discriminate|]. exact IH.
Qed.

Lemma strip_shape (s : string) :
  strip s = EmptyString
  \/ (starts_nonspace (strip s) = true /\ ends_nonspace (strip s) = true).
Proof.
  unfold strip. destruct (rstrip_shape (lstrip s)) as [H|H]; [left; exact H|].
  right. split; [|exact H].
  destruct (lstrip_shape s) as [E|E].
  - rewrite E in H. discriminate H.
  - apply rstrip_keeps_start. exact E.
Qed.

Lemma strip_idempotent (s : string) : strip (strip s) = strip s.
Proof.
  destruct (strip_shape s) as [->|[Hs He]]; [reflexivity|].
  rewrite <- (app_empty_r (strip s)) at 1.
  apply (strip_padded EmptyString (strip s) EmptyString); auto.
Qed.

Lemma ends_nonspace_split (r : string) :
  forall cur, ends_nonspace r = true -> split_from cur r <> [].
Proof.
  induction r as [|c r IH]; intros cur H; [discriminate|].
  destruct r as [|c' r].
  - simpl in H. apply negb_true_iff in H. simpl. rewrite H.
    destruct cur; discriminate.
  - cbn [split_from]. destruct (isspace c).
    + intros Heq. apply app_eq_nil in Heq as [_ Heq]. exact (IH _ H Heq).
    + apply IH. exact H.
Qed.

(** A stripped line that starts with a tag and a blank has a token. *)
Lemma stripped_tag_line_tokens (tag : ascii) (line : string) :
  strip line = line ->
  startswith (String tag " ") line = true ->
  split (drop 2 line) <> [].
Proof.
  intros Hstrip Htag.
  destruct line as [|a [|b r]]; try discriminate.
  - cbn [startswith] in Htag. destruct (Ascii.eqb tag a); discriminate.
  - cbn [startswith] in Htag. destruct (Ascii.eqb tag a); [|discriminate].
    destruct (Ascii.eqb_spec " " b) as [<-|]; [|discriminate].
    destruct (strip_shape (String a (String " " r))) as [H|[_ H]];
      rewrite Hstrip in H; [discriminate|].
    change (ends_nonspace (String " " r) = true) in H.
    destruct r as [|c r]; [discriminate|].
    simpl drop. apply ends_nonspace_split. exact H.
Qed.

(** *** One call of [next] on a running generator *)

Lemma resume_next (g : Generator) (p : Process) :
  resume env g None p
  = match stdout p with
    | [] => (goto g (Finished (Some (kill (wait p)))) [], Raise StopIteration)
    | line :: rest =>
        if is_empty line
        then (goto g (Finished (Some (kill (wait (advance p rest))))) [],
              Raise StopIteration)
        else
          match decode_utf8 env line with
          | Raise e => (goto g (Finished (Some (kill (advance p rest)))) [], Raise e)
          | Ok text => (goto g (AtYield (advance p rest)) [text], Ok (strip text))
          end
    end.
Proof.
  unfold resume, try_block. destruct (stdout p) as [|line rest]; [reflexivity|].
  destruct (is_empty line); [reflexivity|].
  destruct (decode_utf8 env line); reflexivity.
Qed.

Lemma gen_next_finished (g : Generator) (p : option Process) :
  at_ g = Finished p -> gen_next env g = (g, Raise StopIteration).
Proof. intros H. unfold gen_next. rewrite H. reflexivity. Qed.

(** Draining a generator whose first [next] runs the loop on [p]. *)
Lemma nexts_drain (raw : list bytes) :
  forall p g lines ending,
    gen_next env g = resume env g None p ->
    stdout p = raw ->
    stream_of env raw = (lines, ending) ->
    exists g' p',
      nexts env (S (length lines)) g
      = (g', map Ok lines ++ [Raise (ending_exn ending)])
      /\ at_ g' = Finished (Some p')
      /\ killed p' = true
      /\ waited p' = match ending with None => true | Some _ => waited p end
      /\ cmdline p' = cmdline p.
Proof.
  induction raw as [|line rest IH]; intros p g lines ending Hnext Hout Hstream.
  - injection Hstream as <- <-. cbn [nexts length]. rewrite Hnext, resume_next, Hout.
    eexists _, _. split; [reflexivity|]. simpl. auto.
  - cbn [stream_of] in Hstream. cbn [nexts]. rewrite Hnext, resume_next, Hout.
    destruct (is_empty line).
    + injection Hstream as <- <-. cbn [nexts length].
      eexists _, _. split; [reflexivity|]. simpl. auto.
    + destruct (decode_utf8 env line) as [text|e].
      * destruct (stream_of env rest) as [ls en] eqn:Hrest.
        injection Hstream as <- <-.
        destruct (IH (advance p rest) (goto g (AtYield (advance p rest)) [text])
                    ls en) as (g' & p' & Hn & Hat & Hk & Hw & Hc);
          [reflexivity | reflexivity | reflexivity |].
        cbn [length]. rewrite Hn. exists g', p'.
        split; [reflexivity|]. auto.
      * injection Hstream as <- <-. cbn [nexts length].
        eexists _, _. split; [reflexivity|]. simpl. auto.
Qed.

End GeneratorExtras.

(** X19.  Read to its end, the generator yields the lines of the program's
    output in order, each decoded and stripped, up to the first empty read
    or the first line that cannot be decoded; the call after the last line
    raises [StopIteration] or the decoding error and leaves the generator
    finished with the subprocess killed (and waited for, at the end of the
    output); every later call raises [StopIteration] and changes
    nothing. *)
Theorem generate_oneshot_drains
    (env : Env) (this : LlamaCppWrapper) (prompt : string) (args : list string)
    (raw : list bytes) (lines : list string) (ending : option exn) :
  popen env (command_line this prompt args) = Ok raw ->
  stream_of env raw = (lines, ending) ->
  exists g p,
    nexts env (S (length lines)) (generate_oneshot this prompt args)
    = (g, map Ok lines ++ [Raise (ending_exn ending)])
    /\ at_ g = Finished (Some p)
    /\ killed p = true
    /\ waited p = match ending with None => true | Some _ => false end
    /\ gen_next env g = (g, Raise StopIteration).
Proof.
  intros Hpopen Hstream.
  destruct (nexts_drain env raw
              {| cmdline := command_line this prompt args; stdout := raw;
                 waited := false; killed := false |}
              (generate_oneshot this prompt args) lines ending)
    as (g & p & Hn & Hat & Hk & Hw & _).
  - unfold gen_next. simpl. rewrite Hpopen. reflexivity.
  - reflexivity.
  - exact Hstream.
  - exists g, p. split; [exact Hn|]. split; [exact Hat|]. split; [exact Hk|].
    split; [exact Hw|]. eapply gen_next_finished. exact Hat.
Qed.

(** The program prints a name, a blank line and a vertex. *)
Lemma generate_oneshot_drains_witness :
  let env := linux_env (Ok sized_response)
               ["Simple Table Model" +:+ String "010" EmptyString;
                String "010" EmptyString;
                "v 0 12 15" +:+ String "013" (String "010" EmptyString)] in
  let this := {| binary_path := "/addon/bin/llama-cli";
                 model_path := "/addon/gguf/LLaMA-Mesh-Q8_0.gguf" |} in
  snd (nexts env 4 (generate_oneshot this "a simple table" []))
  = [Ok "Simple Table Model"; Ok EmptyString; Ok "v 0 12 15"; Raise StopIteration].
Proof.
  intros env this.
  destruct (generate_oneshot_drains env this "a simple table" [] _
              ["Simple Table Model"; EmptyString; "v 0 12 15"] None
              eq_refl eq_refl) as (g & p & Hn & _).
  change (length ["Simple Table Model"; EmptyString; "v 0 12 15"]) with 3%nat in Hn.
  rewrite Hn. reflexivity.
Defined.

(** X20.  Every line the generator yields is stripped: stripping it again
    changes nothing.  So a yielded line that starts with the vertex or the
    face tag has at least one token after it, and a converter that returns
    on such a line never returns the empty tuple. *)
Theorem generate_oneshot_yields_stripped
    (env : Env) (g g' : Generator) (line : string) :
  gen_next env g = (g', Ok line) ->
  strip line = line
  /\ (startswith "v " line = true ->
      forall v, _obj_vertex_to_bpy line = Ok v -> v <> [])
  /\ (startswith "f " line = true ->
      forall f, _obj_face_to_bpy line = Ok f -> f <> []).
Proof.
  intros Hnext.
  assert (Hstrip : strip line = line).
  { revert Hnext. unfold gen_next.
    assert (Hres : forall p, resume env g None p = (g', Ok line) -> strip line = line).
    { intros p. rewrite resume_next. destruct (stdout p) as [|l rest]; [discriminate|].
      destruct (is_empty l); [discriminate|].
      destruct (decode_utf8 env l); [|discriminate].
      intros [= _ <-]. apply strip_idempotent. }
    destruct (at_ g) as [|p|p]; [|apply Hres|discriminate].
    destruct (popen env _); [apply Hres | discriminate]. }
  split; [exact Hstrip|]. split.
  - intros Htag v Hv Hnil. subst v.
    apply map_result_length in Hv.
    apply (stripped_tag_line_tokens "v" line Hstrip Htag).
    destruct (split (drop 2 line)); [reflexivity | discriminate Hv].
  - intros Htag f Hf Hnil. subst f.
    apply map_result_length in Hf.
    apply (stripped_tag_line_tokens "f" line Hstrip Htag).
    destruct (split (drop 2 line)); [reflexivity | discriminate Hf].
Qed.

(** A vertex line padded with blanks on both sides. *)
Lemma generate_oneshot_yields_stripped_witness :
  let env := linux_env (Ok sized_response) ["  v 1 2 3  " +:+ String "010" EmptyString] in
  let this := {| binary_path := "/addon/bin/llama-cli";
                 model_path := "/addon/gguf/LLaMA-Mesh-Q8_0.gguf" |} in
  snd (gen_next env (generate_oneshot this "a cube" [])) = Ok "v 1 2 3"
  /\ strip "v 1 2 3" = "v 1 2 3".
Proof.
  intros env this. split; [reflexivity|].
  exact (proj1 (generate_oneshot_yields_stripped env
                  (generate_oneshot this "a cube" [])
                  (fst (gen_next env (generate_oneshot this "a cube" [])))
                  "v 1 2 3" eq_refl)).
Defined.

(** ** [execute] over the generator *)

Section RunFacts.

Variable env : Env.
Variable from_pydata_raises : list vertex -> list face -> list face -> option exn.

Local Abbreviation scan := (scan from_pydata_raises).
Local Abbreviation for_lines := (for_lines env from_pydata_raises).

Lemma for_lines_raise (fuel : nat) (g g' : Generator) (st : ExecState) (e : exn) :
  gen_next env g = (g', Raise e) ->
  e <> StopIteration ->
  for_lines (S fuel) g st = Some (g', st, Raise e).
Proof.
  intros H Hne. cbn [Operator.for_lines]. rewrite H.
  destruct e; try reflexivity. contradiction.
Qed.

(** The loop of [execute] on a running generator: it ends as the scan of
    the generator's lines does, with the generator finished and the
    subprocess killed when the scan raised nothing, and with the generator
    still suspended and the subprocess not killed when it did. *)
Lemma for_lines_stream (raw : list bytes) :
  forall p g st lines ending fuel,
    gen_next env g = resume env g None p ->
    stdout p = raw ->
    killed p = false ->
    stream_of env raw = (lines, ending) ->
    ending <> Some StopIteration ->
    (length lines < fuel)%nat ->
    exists g',
      for_lines fuel g st
      = Some (g', fst (scan st lines),
              match snd (scan st lines) with
              | Some e => Raise e
              | None => loop_result ending
              end)
      /\ match snd (scan st lines) with
         | Some _ => exists p', at_ g' = AtYield p' /\ killed p' = false
         | None => exists p', at_ g' = Finished (Some p') /\ killed p' = true
         end.
Proof.
  induction raw as [|line rest IH];
    intros p g st lines ending fuel Hnext Hout Hk Hstream Hend Hfuel;
    (destruct fuel as [|fuel]; [lia|]).
  - injection Hstream as <- <-. cbn [Operator.for_lines].
    rewrite Hnext, resume_next, Hout. eexists. split; [reflexivity|].
    simpl. eauto.
  - cbn [stream_of] in Hstream.
    pose proof (resume_next env g p) as Hres. rewrite Hout in Hres.
    destruct (is_empty line).
    + injection Hstream as <- <-. cbn [Operator.for_lines].
      rewrite Hnext, Hres. eexists. split; [reflexivity|]. simpl. eauto.
    + destruct (decode_utf8 env line) as [text|e].
      * destruct (stream_of env rest) as [ls en] eqn:Hrest.
        injection Hstream as <- <-.
        cbn [Operator.for_lines]. rewrite Hnext, Hres. cbn [Addon.scan].
        destruct (Addon.scan_line from_pydata_raises st (strip text))
          as [st' [e|]] eqn:Hline.
        -- eexists. split; [reflexivity|]. simpl. eauto.
        -- apply (IH (advance p rest)); try reflexivity; try assumption.
           simpl in Hfuel. lia.
      * injection Hstream as <- <-.
        rewrite (for_lines_raise fuel g
                   (goto g (Finished (Some (kill (advance p rest)))) []) st e);
          [| rewrite Hnext, Hres; reflexivity | congruence].
        eexists. split; [reflexivity|]. simpl. eauto.
Qed.

End RunFacts.

(** X21.  Run over the generator, [execute] gives what it gives on the
    list of lines the generator yields and the way it ends: the same mesh
    state and the same result.  With as many turns allowed as there are
    lines it always comes to an end. *)
Theorem execute_over_stream
    (env : Env)
    (from_pydata_raises : list vertex -> list face -> list face -> option exn)
    (this : LlamaCppWrapper) (prompt : string) (args : list string)
    (raw : list bytes) (lines : list string) (ending : option exn) (fuel : nat) :
  popen env (command_line this prompt args) = Ok raw ->
  stream_of env raw = (lines, ending) ->
  ending <> Some StopIteration ->
  (length lines <= fuel)%nat ->
  exists g,
    execute_over env from_pydata_raises fuel (generate_oneshot this prompt args)
    = Some (g, fst (execute from_pydata_raises lines ending),
            snd (execute from_pydata_raises lines ending)).
Proof.
  intros Hpopen Hstream Hend Hfuel.
  set (p0 := {| cmdline := command_line this prompt args; stdout := raw;
                waited := false; killed := false |}).
  assert (Hnext : gen_next env (generate_oneshot this prompt args)
                  = resume env (generate_oneshot this prompt args) None p0).
  { unfold gen_next. simpl. rewrite Hpopen. reflexivity. }
  pose proof (resume_next env (generate_oneshot this prompt args) p0) as Hres.
  unfold execute_over. rewrite Hnext, Hres. cbn [stdout p0].
  destruct raw as [|line rest].
  - injection Hstream as <- <-. eexists. reflexivity.
  - cbn [stream_of] in Hstream. destruct (is_empty line).
    + injection Hstream as <- <-. eexists. reflexivity.
    + destruct (decode_utf8 env line) as [text|e].
      * destruct (stream_of env rest) as [ls en] eqn:Hrest.
        injection Hstream as <- <-.
        destruct (for_lines_stream env from_pydata_raises rest (advance p0 rest)
                    (goto (generate_oneshot this prompt args)
                       (AtYield (advance p0 rest)) [text])
                    (new_state (join "_" (map lower (split (strip (strip text))))))
                    ls en fuel) as (g & Hloop & _);
          try reflexivity; try assumption.
        cbv zeta. rewrite Hloop. exists g. cbn [execute].
        destruct (scan from_pydata_raises _ ls) as [st [e|]]; [reflexivity|].
        destruct en; reflexivity.
      * injection Hstream as <- <-. eexists. reflexivity.
Qed.

(** The name, one vertex and one face. *)
Lemma execute_over_stream_witness :
  let env := linux_env (Ok sized_response)
               ["Cube" +:+ String "010" EmptyString;
                "v 1 2 3" +:+ String "010" EmptyString;
                "f 1 1 1" +:+ String "010" EmptyString] in
  let this := {| binary_path := "/addon/bin/llama-cli";
                 model_path := "/addon/gguf/LLaMA-Mesh-Q8_0.gguf" |} in
  exists g,
    execute_over env (fun _ _ _ => None) 3 (generate_oneshot this "a cube" [])
    = Some (g,
            fst (execute (fun _ _ _ => None) ["Cube"; "v 1 2 3"; "f 1 1 1"] None),
            Ok tt).
Proof.
  intros env this.
  assert (Hend : @None exn <> Some StopIteration) by discriminate.
  assert (Hfuel : (length ["Cube"; "v 1 2 3"; "f 1 1 1"] <= 3)%nat) by (simpl; lia).
  exact (execute_over_stream env (fun _ _ _ => None) this "a cube" [] _
           ["Cube"; "v 1 2 3"; "f 1 1 1"] None 3 eq_refl eq_refl Hend Hfuel).
Defined.

(** X22.  [execute] never closes its iterator.  When the scan of the
    lines after the first raises, [execute] raises with the generator still
    suspended at its [yield] and the subprocess not killed; closing the
    generator afterwards is what kills it.  When the scan raises nothing,
    the generator is finished and the subprocess killed by the time
    [execute] ends. *)
Theorem execute_over_leaves_generator
    (env : Env)
    (from_pydata_raises : list vertex -> list face -> list face -> option exn)
    (this : LlamaCppWrapper) (prompt : string) (args : list string)
    (raw : list bytes) (first : string) (rest : list string)
    (ending : option exn) (fuel : nat) :
  popen env (command_line this prompt args) = Ok raw ->
  stream_of env raw = (first :: rest, ending) ->
  ending <> Some StopIteration ->
  (length rest < fuel)%nat ->
  let name := join "_" (map lower (split first)) in
  exists g st r,
    execute_over env from_pydata_raises fuel (generate_oneshot this prompt args)
    = Some (g, Some st, r)
    /\ match snd (scan from_pydata_raises (new_state name) rest) with
       | Some e =>
           r = Raise e
           /\ exists p,
                at_ g = AtYield p /\ killed p = false
                /\ at_ (gen_close env g) = Finished (Some (kill p))
       | None =>
           r = loop_result ending
           /\ exists p, at_ g = Finished (Some p) /\ killed p = true
       end.
Proof.
  intros Hpopen Hstream Hend Hfuel name.
  set (p0 := {| cmdline := command_line this prompt args; stdout := raw;
                waited := false; killed := false |}).
  assert (Hnext : gen_next env (generate_oneshot this prompt args)
                  = resume env (generate_oneshot this prompt args) None p0).
  { unfold gen_next. simpl. rewrite Hpopen. reflexivity. }
  pose proof (resume_next env (generate_oneshot this prompt args) p0) as Hres.
  unfold execute_over. rewrite Hnext, Hres. cbn [stdout p0].
  destruct raw as [|line raw']; [discriminate|].
  cbn [stream_of] in Hstream. destruct (is_empty line); [discriminate|].
  destruct (decode_utf8 env line) as [text|e]; [|discriminate].
  destruct (stream_of env raw') as [ls en] eqn:Hrest.
  injection Hstream as <- <- <-.
  destruct (for_lines_stream env from_pydata_raises raw' (advance p0 raw')
              (goto (generate_oneshot this prompt args)
                 (AtYield (advance p0 raw')) [text])
              (new_state (join "_" (map lower (split (strip (strip text))))))
              ls en fuel) as (g & Hloop & Hgen);
    try reflexivity; try assumption.
  cbv zeta. rewrite Hloop. subst name.
  rewrite (split_strip (strip text)) in *.
  eexists g, _, _. split; [reflexivity|].
  destruct (snd (scan from_pydata_raises _ ls)) as [e|].
  - split; [reflexivity|]. destruct Hgen as (p & Hat & Hk).
    exists p. split; [exact Hat|]. split; [exact Hk|].
    unfold gen_close, gen_throw, resume, try_block. rewrite Hat. reflexivity.
  - split; [reflexivity|]. exact Hgen.
Qed.

(** The second vertex is malformed: the program is still running when
    [execute] raises. *)
Lemma execute_over_leaves_generator_witness :
  let env := linux_env (Ok sized_response)
               ["Cube" +:+ String "010" EmptyString;
                "v 1 2 x" +:+ String "010" EmptyString;
                "f 1 1 1" +:+ String "010" EmptyString] in
  let this := {| binary_path := "/addon/bin/llama-cli";
                 model_path := "/addon/gguf/LLaMA-Mesh-Q8_0.gguf" |} in
  exists g st p,
    execute_over env (fun _ _ _ => None) 3 (generate_oneshot this "a cube" [])
    = Some (g, Some st, Raise ValueError)
    /\ at_ g = AtYield p /\ killed p = false /\ stdout p = ["f 1 1 1" +:+ String "010" EmptyString].
Proof.
  intros env this.
  assert (Hend : @None exn <> Some StopIteration) by discriminate.
  assert (Hfuel : (length ["v 1 2 x"; "f 1 1 1"] < 3)%nat) by (simpl; lia).
  destruct (execute_over_leaves_generator env (fun _ _ _ => None) this "a cube" [] _
              "Cube" ["v 1 2 x"; "f 1 1 1"] None 3 eq_refl eq_refl Hend Hfuel)
    as (g & st & r & Hrun & Hgen).
  vm_compute in Hrun. injection Hrun as <- <- <-.
  eexists _, _, _. split; [reflexivity|]. repeat split.
Defined.

(** ** The bundle script *)

Import Bundle.

Section BundleFacts.

Lemma node_induction (P : node -> Prop) :
  (forall name content, P (File name content)) ->
  (forall name children, Forall P children -> P (Dir name children)) ->
  forall n, P n.
Proof.
  intros Hfile Hdir.
  fix IH 1. intros [name content | name children].
  - apply Hfile.
  - apply Hdir. induction children as [|child rest IHrest].
    + constructor.
    + constructor; [apply IH | exact IHrest].
Qed.

(** The generator called with the default whitelist, as every recursive
    call is. *)
Lemma fetch_default (n : node) :
  forall path,
    (every_file is_python n = true ->
     fetch_src_recursive_gen path n default_ext_whitelist = (files_of path n, None))
    /\ (every_file is_python n = false ->
        exists ys,
          fetch_src_recursive_gen path n default_ext_whitelist
          = (ys, Some NotADirectoryError)
          /\ ys `prefix_of` files_of path n).
Proof.
  induction n as [name content | name children IH] using node_induction; intros path.
  - cbn [fetch_src_recursive_gen every_file files_of]. unfold is_python.
    destruct (suffix_in name default_ext_whitelist).
    + split; [reflexivity | discriminate].
    + split; [discriminate|]. intros _. exists []. split; [reflexivity|].
      apply prefix_nil.
  - cbn [fetch_src_recursive_gen every_file files_of].
    induction IH as [|child rest Hchild _ IHrest]; cbn [for_children forallb flat_map].
    + split; [reflexivity | discriminate].
    + destruct (Hchild (path ++ [node_name child])) as [Hgood Hbad].
      destruct IHrest as [Hgoods Hbads].
      destruct (every_file is_python child).
      * rewrite Hgood by reflexivity. cbn [andb]. split.
        -- intros Hrest. rewrite (Hgoods Hrest). reflexivity.
        -- intros Hrest. destruct (Hbads Hrest) as (ys & -> & Hpre).
           exists (files_of (path ++ [node_name child]) child ++ ys).
           split; [reflexivity|]. apply prefix_app. exact Hpre.
      * cbn [andb]. split; [discriminate|]. intros _.
        destruct (Hbad eq_refl) as (ys & -> & Hpre).
        exists ys. split; [reflexivity|].
        etrans; [exact Hpre | apply prefix_app_r; reflexivity].
Qed.

Lemma entry_arcname (path : list string) :
  startswith "/llama-mesh-blender/" (snd (entry path)) = true.
Proof. reflexivity. Qed.

End BundleFacts.

(** X23.  Called on a directory, with whatever whitelist, the generator
    yields the regular files of the tree in traversal order when all of them
    end in [.py].  As soon as it meets a regular file with another suffix it
    raises [NotADirectoryError], having yielded only files that come before
    it: the whitelist is not passed down, and a file that is not yielded is
    iterated as a directory. *)
Theorem fetch_src_recursive_gen_outcome
    (path : list string) (name : string) (children : list node)
    (ext_whitelist : list string) :
  let root := Dir name children in
  (every_file is_python root = true ->
   fetch_src_recursive_gen path root ext_whitelist = (files_of path root, None))
  /\ (every_file is_python root = false ->
      exists ys,
        fetch_src_recursive_gen path root ext_whitelist
        = (ys, Some NotADirectoryError)
        /\ ys `prefix_of` files_of path root).
Proof.
  intros root.
  change (fetch_src_recursive_gen path root ext_whitelist)
    with (fetch_src_recursive_gen path root default_ext_whitelist).
  apply fetch_default.
Qed.

(** The source tree of the add-on, before and after the wrapper has left
    its version marker in its package directory; the caller asks for text
    files. *)
Lemma fetch_src_recursive_gen_outcome_witness :
  fetch_src_recursive_gen ["src"]
    (Dir "src" [File "__init__.py" "a";
                Dir "llama_cpp_wrapper" [File "__init__.py" "b"; File "_wrapper.py" "c"]])
    [".txt"]
  = ([["src"; "__init__.py"]; ["src"; "llama_cpp_wrapper"; "__init__.py"];
      ["src"; "llama_cpp_wrapper"; "_wrapper.py"]], None)
  /\ exists ys,
       fetch_src_recursive_gen ["src"]
         (Dir "src" [File "__init__.py" "a";
                     Dir "llama_cpp_wrapper"
                       [File "__init__.py" "b"; File "version_info" "Linux";
                        File "_wrapper.py" "c"]])
         [".py"]
       = (ys, Some NotADirectoryError).
Proof.
  split.
  - exact (proj1 (fetch_src_recursive_gen_outcome ["src"] "src"
                    [File "__init__.py" "a";
                     Dir "llama_cpp_wrapper"
                       [File "__init__.py" "b"; File "_wrapper.py" "c"]] [".txt"])
                 eq_refl).
  - destruct (proj2 (fetch_src_recursive_gen_outcome ["src"] "src"
                       [File "__init__.py" "a";
                        Dir "llama_cpp_wrapper"
                          [File "__init__.py" "b"; File "version_info" "Linux";
                           File "_wrapper.py" "c"]] [".py"]) eq_refl)
      as (ys & H & _).
    exists ys. exact H.
Defined.

(** X24.  [create_zip] completes exactly when the licence file is there,
    the source tree exists and every regular file in it ends in [.py]; the
    archive then gets the licence followed by one member for each file, in
    traversal order, named by its path below the source directory.  In all
    cases every member written is named under the folder of the add-on. *)
Theorem create_zip_outcome (project : Project) :
  (forall n,
      has_license project = true -> src project = Some n ->
      every_file is_python n = true ->
      create_zip project
      = ((["LICENSE"], "/llama-mesh-blender/LICENSE")
           :: map entry (files_of ["src"] n), None))
  /\ (forall entries,
        create_zip project = (entries, None) ->
        has_license project = true
        /\ exists n, src project = Some n /\ every_file is_python n = true)
  /\ (forall entries r,
        create_zip project = (entries, r) ->
        Forall (fun e => startswith "/llama-mesh-blender/" (snd e) = true) entries).
Proof.
  unfold create_zip. split; [|split].
  - intros n Hlic Hsrc Hpy. rewrite Hlic, Hsrc.
    rewrite (proj1 (fetch_default n ["src"]) Hpy). reflexivity.
  - intros entries. destruct (has_license project); [|discriminate].
    destruct (src project) as [n|]; [|discriminate].
    destruct (every_file is_python n) eqn:Hpy.
    + intros _. eauto.
    + destruct (proj2 (fetch_default n ["src"]) Hpy) as (ys & -> & _). discriminate.
  - intros entries r. destruct (has_license project).
    + destruct (src project) as [n|].
      * destruct (fetch_src_recursive_gen ["src"] n default_ext_whitelist) as [ys r'].
        intros [= <- <-]. constructor; [reflexivity|].
        apply Forall_map. apply Forall_forall. intros path _. apply entry_arcname.
      * intros [= <- <-]. repeat constructor.
    + intros [= <- <-]. constructor.
Qed.

(** The add-on as it is in the repository. *)
Lemma create_zip_outcome_witness :
  create_zip
    {| has_license := true;
       src := Some (Dir "src"
                      [File "__init__.py" "a";
                       Dir "llama_cpp_wrapper"
                         [File "__init__.py" "b"; File "_wrapper.py" "c"]]) |}
  = ([(["LICENSE"], "/llama-mesh-blender/LICENSE");
      (["src"; "__init__.py"], "/llama-mesh-blender/__init__.py");
      (["src"; "llama_cpp_wrapper"; "__init__.py"],
       "/llama-mesh-blender/llama_cpp_wrapper/__init__.py");
      (["src"; "llama_cpp_wrapper"; "_wrapper.py"],
       "/llama-mesh-blender/llama_cpp_wrapper/_wrapper.py")], None).
Proof.
  exact (proj1 (create_zip_outcome
                  {| has_license := true;
                     src := Some (Dir "src"
                                    [File "__init__.py" "a";
                                     Dir "llama_cpp_wrapper"
                                       [File "__init__.py" "b";
                                        File "_wrapper.py" "c"]]) |})
               _ eq_refl eq_refl eq_refl).
Defined.

(** ** The marker and the machine *)

Section MarkerExtras.

Variable env : Env.
Variable url : string.

(** After a call that returned, the marker records the current pair. *)
Lemma ensure_binary_ok_matches (w : World) :
  _BINARY_URL env = Ok url ->
  snd (_ensure_binary env url w) = Ok tt ->
  marker_matches env
    (splitlines (strip (read_text (ver_info (fst (_ensure_binary env url w)))))).
Proof.
  intros Hurl Hok.
  destruct (old_binary (splitlines (strip (read_text (ver_info w)))))
    as [[os build]|e] eqn:Hold.
  - destruct (String.eqb os (platform_system env) && String.eqb build _LLAMA_CPP_BUILD)
      eqn:Hc.
    + rewrite (ensure_binary_skip env url w os build Hold Hc). simpl.
      destruct (splitlines (strip (read_text (ver_info w)))) as [|a [|b rest]];
        simpl in Hold; try discriminate.
      * injection Hold as <- <-. apply andb_true_iff in Hc as [_ Hc]. discriminate Hc.
      * injection Hold as <- <-. apply andb_true_iff in Hc as [Ha Hb].
        apply String.eqb_eq in Ha, Hb. subst. split; reflexivity.
    + destruct (ensure_binary_download env url w os build Hold Hc) as [_ Hver].
      rewrite (Hver Hok), (marker_roundtrip env url Hurl). split; reflexivity.
  - rewrite (ensure_binary_raise env url w e Hold) in Hok. discriminate Hok.
Qed.

End MarkerExtras.

(** X25.  The marker records the system and the build, not the machine:
    after a call that returned on one machine, a call on any machine with
    the same system returns after the check message, with no request and
    no file changed, also when the two machines need different archives. *)
Theorem ensure_binary_ignores_machine
    (env1 env2 : Env) (url1 url2 : string) (w : World) :
  _BINARY_URL env1 = Ok url1 ->
  platform_system env2 = platform_system env1 ->
  snd (_ensure_binary env1 url1 w) = Ok tt ->
  _ensure_binary env2 url2 (fst (_ensure_binary env1 url1 w))
  = (checking (fst (_ensure_binary env1 url1 w)), Ok tt).
Proof.
  intros Hurl Hsys Hok.
  pose proof (ensure_binary_ok_matches env1 url1 w Hurl Hok) as [H0 H1].
  destruct (splitlines (strip (read_text (ver_info (fst (_ensure_binary env1 url1 w))))))
    as [|a [|b rest]] eqn:Hlines; try discriminate.
  simpl in H0, H1. injection H0 as ->. injection H1 as ->.
  apply (ensure_binary_skip env2 url2 _ (platform_system env1) _LLAMA_CPP_BUILD).
  - rewrite Hlines. reflexivity.
  - rewrite Hsys, !String.eqb_refl. reflexivity.
Qed.

(** The add-on folder installed on an x86-64 machine and then used on an
    ARM one, both running Linux. *)
Lemma ensure_binary_ignores_machine_witness :
  let env1 := linux_env (Ok sized_response) [] in
  let env2 := {| platform_system := "Linux"; platform_machine := "arm64";
                 root := "/addon"; urlopen := fun _ _ => Ok sized_response;
                 zip_members := fun _ => Ok [];
                 popen := fun _ => Ok []; decode_utf8 := fun b => Ok b |} in
  let url2 := "https://github.com/ggerganov/llama.cpp/releases/download/b4227/llama-b4227-bin-ubuntu-arm64.zip" in
  _BINARY_URL env2 = Ok url2
  /\ requests (fst (_ensure_binary env2 url2
                      (fst (_ensure_binary env1 linux_binary_url empty_world))))
     = [linux_binary_url].
Proof.
  intros env1 env2 url2. split; [reflexivity|].
  rewrite (ensure_binary_ignores_machine env1 env2 linux_binary_url url2 empty_world
             eq_refl eq_refl eq_refl).
  reflexivity.
Defined.



(** ** The name of the mesh *)

Section NameFacts.

Lemma isspace_lower_char (c : ascii) : isspace (lower_char c) = isspace c.
Proof. destruct c as [[] [] [] [] [] [] [] []]; reflexivity. Qed.

Lemma lower_char_idempotent (c : ascii) : lower_char (lower_char c) = lower_char c.
Proof. destruct c as [[] [] [] [] [] [] [] []]; reflexivity. Qed.

Lemma nospace_lower (s : string) : nospace (lower s) = nospace s.
Proof.
  induction s as [|c s IH]; [reflexivity|].
  simpl. rewrite isspace_lower_char, IH. reflexivity.
Qed.

Lemma lower_idempotent (s : string) : lower (lower s) = lower s.
Proof.
  induction s as [|c s IH]; [reflexivity|].
  simpl. rewrite lower_char_idempotent, IH. reflexivity.
Qed.

Lemma lower_app (a b : string) : lower (a +:+ b) = lower a +:+ lower b.
Proof.
  induction a as [|c a IH]; [reflexivity|].
  rewrite app_cons. simpl. rewrite IH. reflexivity.
Qed.

Lemma nospace_app (a b : string) : nospace (a +:+ b) = nospace a && nospace b.
Proof.
  induction a as [|c a IH]; [reflexivity|].
  rewrite app_cons. simpl. rewrite IH. apply andb_assoc.
Qed.

Lemma flush_nospace (cur : string) :
  nospace cur = true -> Forall (fun t => nospace t = true) (flush cur).
Proof. intros H. unfold flush. destruct (is_empty cur); repeat constructor. exact H. Qed.

Lemma split_from_nospace (s : string) :
  forall cur,
    nospace cur = true -> Forall (fun t => nospace t = true) (split_from cur s).
Proof.
  induction s as [|c s IH]; intros cur Hcur; simpl.
  - apply flush_nospace. exact Hcur.
  - destruct (isspace c) eqn:Hc.
    + apply Forall_app. split; [apply flush_nospace; exact Hcur | apply IH; reflexivity].
    + apply IH. rewrite nospace_app, Hcur. simpl. rewrite Hc. reflexivity.
Qed.

Lemma join_underscore_shape (ts : list string) :
  Forall (fun t => nospace t = true) ts ->
  nospace (join "_" (map lower ts)) = true
  /\ lower (join "_" (map lower ts)) = join "_" (map lower ts).
Proof.
  induction 1 as [|t ts Ht _ [IHn IHl]]; [split; reflexivity|].
  destruct ts as [|t' ts].
  - simpl. rewrite nospace_lower, lower_idempotent. auto.
  - change (join "_" (map lower (t :: t' :: ts)))
      with (lower t +:+ "_" +:+ join "_" (map lower (t' :: ts))).
    split.
    + rewrite !nospace_app, nospace_lower, Ht, IHn. reflexivity.
    + rewrite !lower_app, lower_idempotent, IHl. reflexivity.
Qed.

End NameFacts.

(** X27.  The name given to the mesh and to the object holds no blank
    space and no capital letter, and is empty when the first line is blank:
    lowering it or splitting it into words gives it back. *)
Theorem execute_name_shape
    (from_pydata_raises : list vertex -> list face -> list face -> option exn)
    (first : string) (rest : list string) (ending : option exn) :
  exists st r,
    execute from_pydata_raises (first :: rest) ending = (Some st, r)
    /\ nospace (mesh_name st) = true
    /\ lower (mesh_name st) = mesh_name st
    /\ object_name st = mesh_name st
    /\ (allspace first = true -> mesh_name st = EmptyString).
Proof.
  unfold execute.
  set (name := join "_" (map lower (split (strip first)))).
  assert (Hshape : nospace name = true /\ lower name = name).
  { apply join_underscore_shape. apply split_from_nospace. reflexivity. }
  assert (Hblank : allspace first = true -> name = EmptyString).
  { intros H. unfold name. rewrite split_strip.
    rewrite <- (app_empty_r first), split_leading_spaces by exact H. reflexivity. }
  pose proof (scan_keeps_names from_pydata_raises rest (new_state name)) as Hnames.
  destruct (scan from_pydata_raises (new_state name) rest) as [st e].
  destruct (Hnames st e eq_refl) as (Hm & Ho). simpl in Hm, Ho.
  exists st.
  exists (match e with
          | Some x => Raise x
          | None => match ending with Some x => Raise x | None => Ok tt end
          end).
  split; [destruct e as [x|]; [|destruct ending]; reflexivity|].
  rewrite Hm, Ho. destruct Hshape. auto.
Qed.
